(** * SIM868 driver (sim868.c): a shallow embedding and its properties

    The driver talks to a cellular/GNSS modem over a UART with textual AT
    commands.  The embedding keeps the structure of the C file:

    - the C string helpers the driver relies on ([strstr], [strchr],
      [strtok], [atoi]) as functions on [string];
    - the process-wide globals ([g_sim_buffer], [gs_http_header], ...) and
      the serial link as one record [World], threaded through a state monad;
    - fixed-width integers as [Z] with the wrap-around written out;
    - every driver function under its own name.

    Debug output ([_debug_printf]) goes to a separate UART and is left out. *)

From Stdlib Require Import ZArith Lia Bool List Ascii String QArith Qround Qabs.
From Stdlib Require Import DecimalString Floats.SpecFloat.
From stdpp Require Import base list.

Local Open Scope string_scope.
Local Open Scope Z_scope.

(** ** Error kinds and other constants of sim868.c *)

Definition NO_ERROR : Z := 0.
Definition ERROR_AUTOBAUD_MODE : Z := 1.
Definition ERROR_SIMCARD_STATUS : Z := 2.
Definition ERROR_SIMCARD_PIN : Z := 3.
Definition ERROR_NETWORK_RSSI : Z := 4.
Definition ERROR_NETWORK_REGISTRATION : Z := 5.
Definition ERROR_GPRS_SERVICE : Z := 6.
Definition ERROR_GPRS_CONTEXT : Z := 7.
Definition ERROR_REPLY : Z := 8.
Definition ERROR_HTTP_SERVICE : Z := 9.
Definition ERROR_HTTP_REQUEST : Z := 10.
Definition ERROR_HTTP_STATUS_CODE : Z := 11.
Definition ERROR_JSON_STRUCTURE : Z := 12.
Definition ERROR_GNSS_FIX : Z := 13.
Definition ERROR_POWER_STATE : Z := 14.

Definition DEFAULT_TIMEOUT : Z := 500.
Definition DEBUG_SHORT_DELAY : Z := 1000.

Definition REPLY_BUFFER_LENGTH : nat := 255.

Definition MULTILINE : Z := 1.
Definition SINGLE_LINE : Z := 0.

Definition CONNECTING : Z := 0.
Definition CONNECTED : Z := 1.
Definition CLOSING : Z := 2.
Definition CLOSED : Z := 3.

Definition GET : Z := 0.
Definition POST : Z := 1.

Definition OK : Z := 200.
Definition CREATED : Z := 201.
Definition NOT_FOUND : Z := 404.

Definition NOT_REGISTERED : Z := 0.
Definition REGISTERED_HOME_NET : Z := 1.
Definition SEARCHING : Z := 2.
Definition REGISTRATION_DENIED : Z := 3.
Definition REGISTRED_NO_HOME_NET : Z := 5.

(** Conversions to the fixed-width unsigned types. *)
Definition uint8 (z : Z) : Z := z mod 256.
Definition uint16 (z : Z) : Z := z mod 65536.

(** ** C strings

    A [char *] that points into a NUL-terminated string is represented by
    the string it sees: the characters from the pointer to the terminator.
    Advancing the pointer drops characters from the front. *)

Module CStr.

Definition NUL : ascii := Ascii.zero.
Definition CR : ascii := ascii_of_nat 13.
Definition LF : ascii := ascii_of_nat 10.
Definition DQUOTE : ascii := ascii_of_nat 34.
Definition COMMA : ascii := ascii_of_nat 44.

Definition CRLF : string := String CR (String LF EmptyString).

(** The string seen at the start of a char array: up to the first NUL (or
    the end of the array, past which the C code would keep reading). *)
Fixpoint cstr (b : list ascii) : string :=
  match b with
  | [] => EmptyString
  | c :: t => if Ascii.eqb c NUL then EmptyString else String c (cstr t)
  end.

Definition strlen (s : string) : nat := String.length s.

(** [p + n] *)
Fixpoint advance (n : nat) (s : string) : string :=
  match n, s with
  | S k, String _ t => advance k t
  | _, _ => s
  end.

(** [strstr]: the pointer to the first occurrence of [needle]. *)
Fixpoint strstr (hay needle : string) : option string :=
  if String.prefix needle hay then Some hay
  else match hay with
       | EmptyString => None
       | String _ t => strstr t needle
       end.

(** [strchr], for a character other than NUL. *)
Fixpoint strchr (s : string) (c : ascii) : option string :=
  match s with
  | EmptyString => None
  | String a t => if Ascii.eqb a c then Some s else strchr t c
  end.

Definition strcmp_eq (a b : string) : bool := String.eqb a b.

Definition isspace (c : ascii) : bool :=
  let n := nat_of_ascii c in
  (Nat.eqb n 32 || (Nat.leb 9 n && Nat.leb n 13))%bool.

Definition isdigit (c : ascii) : bool :=
  let n := nat_of_ascii c in (Nat.leb 48 n && Nat.leb n 57)%bool.

Definition digit_val (c : ascii) : Z := Z.of_nat (nat_of_ascii c) - 48.

Fixpoint skip_space (s : string) : string :=
  match s with
  | String c t => if isspace c then skip_space t else s
  | EmptyString => s
  end.

Fixpoint atoi_digits (s : string) (acc : Z) : Z :=
  match s with
  | String c t => if isdigit c then atoi_digits t (10 * acc + digit_val c) else acc
  | EmptyString => acc
  end.

(** [atoi]: leading white space, an optional sign, then decimal digits up to
    the first other character.  The result is not reduced to the range of
    [int]; the callers convert it to the width of the variable they store. *)
Definition atoi (s : string) : Z :=
  match skip_space s with
  | String c t =>
      if Ascii.eqb c "-" then - atoi_digits t 0
      else if Ascii.eqb c "+" then atoi_digits t 0
      else atoi_digits (String c t) 0
  | EmptyString => 0
  end.

(** [strtok]: first the leading delimiters are skipped ... *)
Fixpoint skip_delims (s : string) (d : ascii) : string :=
  match s with
  | String c t => if Ascii.eqb c d then skip_delims t d else s
  | EmptyString => s
  end.

(** ... then the token runs up to the next delimiter, which is overwritten
    with NUL; the second component is what follows that delimiter (where
    the next call with a NULL argument resumes), if there is one. *)
Fixpoint split_token (s : string) (d : ascii) : string * option string :=
  match s with
  | EmptyString => (EmptyString, None)
  | String c t =>
      if Ascii.eqb c d then (EmptyString, Some t)
      else let '(tok, rest) := split_token t d in (String c tok, rest)
  end.

(** [strtok p d] is [None] when the call returns NULL. *)
Definition strtok (p : string) (d : ascii) : option (string * option string) :=
  match skip_delims p d with
  | EmptyString => None
  | q => Some (split_token q d)
  end.

(** Decimal printing, for [sprintf("%u")]. *)
Definition utoa (z : Z) : string :=
  NilEmpty.string_of_uint (N.to_uint (Z.to_N z)).

End CStr.
Import CStr.

(** ** Globals and the serial link *)

(** [struct Http_Header]: pointers to the strings of the HTTP request. *)
Record Http_Header := mkHttpHeader {
  user_agent : string;
  user_data : string;
  content_type : string;
  root : string;
  web_service : string;
  json_structure : string
}.

(** [struct Bearer_Service]. *)
Record Bearer_Service := mkBearer {
  apn : string;
  user : string;
  pwd : string
}.

(** Behaviour that C leaves undefined is not given a meaning: the step is
    recorded here and the run goes on with the state untouched. *)
Inductive Undefined :=
| StoreOutOfBounds (index : nat) (c : ascii)   (* g_sim_buffer[index] = c, index >= 255 *)
| NullDereference.                              (* a NULL pointer handed to atoi/atof *)

(** Private functions whose invocations are logged (ghost state). *)
Inductive Fn := Fn_http_init | Fn_http_start | Fn_http_action | Fn_http_read_all.

(** The modem is a deterministic reactive device: the bytes it puts on the
    line during one millisecond are a function of everything the driver has
    sent so far and of the number of milliseconds since the last
    transmission.  [rx] is the UART receive FIFO; bytes arrive while the
    driver sits in [_debug_delay]. *)
Record World := mkWorld {
  modem : list string -> nat -> list ascii;
  elapsed : nat;                    (* milliseconds since the last transmission *)
  rx : list ascii;                  (* SIM868 UART receive buffer *)
  tx : list string;                 (* strings passed to _sim_send_data, oldest first *)
  g_sim_buffer : list ascii;        (* char g_sim_buffer[REPLY_BUFFER_LENGTH] *)
  g_http_buffer : string;           (* contents of g_http_buffer *)
  g_http_status_code : Z;
  gs_http_header : Http_Header;
  gs_bearer_config : Bearer_Service;
  undefined : list Undefined;       (* undefined steps taken, oldest first *)
  calls : list Fn                   (* ghost: functions entered, oldest first *)
}.

Definition set_link (w : World) (t : nat) (r : list ascii) : World :=
  mkWorld (modem w) t r (tx w) (g_sim_buffer w) (g_http_buffer w)
          (g_http_status_code w) (gs_http_header w) (gs_bearer_config w)
          (undefined w) (calls w).

Definition set_rx (w : World) (r : list ascii) : World := set_link w (elapsed w) r.

Definition set_tx (w : World) (t : list string) : World :=
  mkWorld (modem w) (elapsed w) (rx w) t (g_sim_buffer w) (g_http_buffer w)
          (g_http_status_code w) (gs_http_header w) (gs_bearer_config w)
          (undefined w) (calls w).

Definition set_sim_buffer (w : World) (b : list ascii) : World :=
  mkWorld (modem w) (elapsed w) (rx w) (tx w) b (g_http_buffer w)
          (g_http_status_code w) (gs_http_header w) (gs_bearer_config w)
          (undefined w) (calls w).

Definition set_http_buffer (w : World) (s : string) : World :=
  mkWorld (modem w) (elapsed w) (rx w) (tx w) (g_sim_buffer w) s
          (g_http_status_code w) (gs_http_header w) (gs_bearer_config w)
          (undefined w) (calls w).

Definition set_http_status_code (w : World) (c : Z) : World :=
  mkWorld (modem w) (elapsed w) (rx w) (tx w) (g_sim_buffer w) (g_http_buffer w)
          c (gs_http_header w) (gs_bearer_config w) (undefined w) (calls w).

Definition set_http_header (w : World) (h : Http_Header) : World :=
  mkWorld (modem w) (elapsed w) (rx w) (tx w) (g_sim_buffer w) (g_http_buffer w)
          (g_http_status_code w) h (gs_bearer_config w) (undefined w) (calls w).

Definition set_bearer_config (w : World) (b : Bearer_Service) : World :=
  mkWorld (modem w) (elapsed w) (rx w) (tx w) (g_sim_buffer w) (g_http_buffer w)
          (g_http_status_code w) (gs_http_header w) b (undefined w) (calls w).

Definition log_undefined (w : World) (u : Undefined) : World :=
  mkWorld (modem w) (elapsed w) (rx w) (tx w) (g_sim_buffer w) (g_http_buffer w)
          (g_http_status_code w) (gs_http_header w) (gs_bearer_config w)
          (undefined w ++ [u]) (calls w).

Definition log_call (w : World) (f : Fn) : World :=
  mkWorld (modem w) (elapsed w) (rx w) (tx w) (g_sim_buffer w) (g_http_buffer w)
          (g_http_status_code w) (gs_http_header w) (gs_bearer_config w)
          (undefined w) (calls w ++ [f]).

(** ** The state monad of the driver *)

Definition M (A : Type) : Type := World -> A * World.

Definition ret {A} (a : A) : M A := fun w => (a, w).

Definition bind {A B} (m : M A) (k : A -> M B) : M B :=
  fun w => let '(a, w') := m w in k a w'.

Definition modify (f : World -> World) : M unit := fun w => (tt, f w).

Definition gets {A} (f : World -> A) : M A := fun w => (f w, w).

Declare Scope drv_scope.
Delimit Scope drv_scope with drv.
Notation "x <- m ;; k" := (bind m (fun x => k))
  (at level 100, m at next level, right associativity) : drv_scope.
Notation "m ;;; k" := (bind m (fun _ => k))
  (at level 100, right associativity) : drv_scope.
Local Open Scope drv_scope.

(** ** Hardware interface macros *)

(** One millisecond passes: what the modem emits joins the receive buffer. *)
Definition tick (w : World) : World :=
  set_link w (S (elapsed w)) (rx w ++ modem w (tx w) (elapsed w)).

(** [_debug_delay(ms)] *)
Definition debug_delay (ms : Z) : M unit :=
  modify (fun w => Nat.iter (Z.to_nat ms) tick w).

(** [_sim_clear_buffer()] *)
Definition sim_clear_buffer : M unit := modify (fun w => set_rx w []).

(** [_sim_send_data(s)] *)
Definition sim_send_data (s : string) : M unit :=
  modify (fun w => set_link (set_tx w (tx w ++ [s])) 0 (rx w)).

(** [g_sim_buffer[i] = c]: inside the array the byte is stored, outside the
    store is undefined behaviour. *)
Definition store_sim_buffer (i : nat) (c : ascii) (w : World) : World :=
  if Nat.ltb i REPLY_BUFFER_LENGTH
  then set_sim_buffer w (<[i := c]> (g_sim_buffer w))
  else log_undefined w (StoreOutOfBounds i c).

(** ** Line reader *)

(** The inner [while (_sim_data_available())] loop of [read_line].  It ends
    when the receive buffer is drained ([false]) or on the [break] that
    follows [time_out = 0] ([true]).  [reply_idx] is a [uint8_t]. *)
Fixpoint read_line_drain (lines : Z) (pending : list ascii) (reply_idx : Z)
    (w : World) : bool * Z * World :=
  match pending with
  | [] => (false, reply_idx, set_rx w [])
  | incoming_char :: rest =>
      if Ascii.eqb incoming_char CR then read_line_drain lines rest reply_idx w
      else if (Ascii.eqb incoming_char LF && (reply_idx =? 0))%bool
      then read_line_drain lines rest reply_idx w
      else if (Ascii.eqb incoming_char LF && (lines =? 0))%bool
      then (true, reply_idx, set_rx w rest)
      else read_line_drain lines rest (uint8 (reply_idx + 1))
             (store_sim_buffer (Z.to_nat reply_idx) incoming_char w)
  end.

(** The outer [while (time_out--)] loop; the argument is the value of
    [time_out] before the test. *)
Fixpoint read_line_loop (time_out : nat) (lines : Z) (reply_idx : Z)
    (w : World) : Z * World :=
  match time_out with
  | O => (reply_idx, w)
  | S time_out' =>
      if Z.of_nat REPLY_BUFFER_LENGTH <? reply_idx then (reply_idx, w)
      else
        let '(eol, reply_idx', w') := read_line_drain lines (rx w) reply_idx w in
        if (eol || Nat.eqb time_out' 0)%bool then (reply_idx', w')
        else read_line_loop time_out' lines reply_idx' (snd (debug_delay 1 w'))
  end.

(** The index at which [read_line] writes the closing NUL. *)
Definition read_line_end (time_out lines : Z) (w : World) : Z :=
  fst (read_line_loop (Z.to_nat (uint16 time_out)) lines 0 w).

Definition read_line (time_out lines : Z) : M unit := fun w =>
  let '(reply_idx, w') := read_line_loop (Z.to_nat (uint16 time_out)) lines 0 w in
  (tt, store_sim_buffer (Z.to_nat reply_idx) NUL w').

(** ** Command transceiver *)

Definition get_reply (at_ : string) (time_out : Z) : M unit :=
  sim_clear_buffer ;;;
  sim_send_data at_ ;;;
  sim_send_data CRLF ;;;
  read_line time_out SINGLE_LINE.

(** Returns [true] on mismatch. *)
Definition send_check_reply (at_ reply : string) (time_out : Z) : M bool :=
  get_reply at_ time_out ;;;
  buf <- gets (fun w => cstr (g_sim_buffer w)) ;;
  ret (negb (strcmp_eq buf reply)).

(** The [for] loop of [parse_reply]: [index] times, move to the character
    after the next divider. *)
Fixpoint skip_dividers (index : nat) (divider : ascii) (p : string) : option string :=
  match index with
  | O => Some p
  | S k => match strchr p divider with
           | None => None
           | Some q => skip_dividers k divider (advance 1 q)
           end
  end.

(** [parse_reply(reply, &v, divider, index)]: the result is the returned
    error together with the value of [*v] afterwards ([v] is its value
    before; [index] is a [uint8_t]).  [strtok] cuts the session buffer at
    the comma that ends the token. *)
Definition parse_reply (reply : string) (v : Z) (divider : ascii) (index : Z)
  : M (Z * Z) := fun w =>
  let s := cstr (g_sim_buffer w) in
  match strstr s reply with
  | None => ((ERROR_REPLY, v), w)
  | Some p0 =>
      match skip_dividers (Z.to_nat (uint8 index)) divider
              (advance (strlen reply) p0) with
      | None => ((ERROR_REPLY, v), w)
      | Some p =>
          if Nat.ltb 1 (strlen p) then
            match strtok p COMMA with
            | None => ((NO_ERROR, v), log_undefined w NullDereference)
            | Some (tok, None) => ((NO_ERROR, uint16 (atoi tok)), w)
            | Some (tok, Some rest) =>
                ((NO_ERROR, uint16 (atoi tok)),
                 set_sim_buffer w
                   (<[(strlen s - strlen rest - 1)%nat := NUL]> (g_sim_buffer w)))
            end
          else ((NO_ERROR, uint16 (atoi p)), w)
      end
  end.

Definition send_parse_reply (at_ reply : string) (v : Z) (divider : ascii)
    (index : Z) (time_out : Z) : M (Z * Z) :=
  get_reply at_ time_out ;;;
  r <- parse_reply reply v divider index ;;
  if fst r =? 0 then ret (NO_ERROR, snd r) else ret (ERROR_REPLY, snd r).

(** ** GPRS/GSM *)

Definition quoted (s : string) : string :=
  (String DQUOTE s ++ String DQUOTE EmptyString)%string.

(** [sprintf] into the local command buffers is string concatenation; the
    sizes of those buffers are not part of the model. *)
Definition cmd_http_para (name value : string) : string :=
  ("AT+HTTPPARA=" ++ quoted name ++ "," ++ quoted value)%string.

Definition cmd_sapbr_set (name value : string) : string :=
  ("AT+SAPBR=3,1," ++ quoted name ++ "," ++ quoted value)%string.

Definition cmd_contype : string := cmd_sapbr_set "CONTYPE" "GPRS".
Definition cmd_open_bearer : string := "AT+SAPBR=1,1".
Definition cmd_close_bearer : string := "AT+SAPBR=0,1".
Definition cmd_query_bearer : string := "AT+SAPBR=2,1".

(** [delay_seconds] *)
Definition delay_seconds (seconds : Z) : M unit :=
  modify (fun w => Nat.iter (Z.to_nat (uint8 seconds))
                     (fun w' => snd (debug_delay DEBUG_SHORT_DELAY w')) w).

(** [gprs_query]: the local [bearer_status] is assigned before it is read. *)
Definition gprs_query : M Z :=
  r <- send_parse_reply cmd_query_bearer "+SAPBR: " 0 COMMA 1 10000 ;;
  if fst r =? 0 then ret (snd r) else ret ERROR_REPLY.

(** [gprs_network_rssi] *)
Definition gprs_network_rssi : M Z :=
  r <- send_parse_reply "AT+CSQ" "+CSQ: " 0 COMMA 0 DEFAULT_TIMEOUT ;;
  if fst r =? 0 then
    let state := snd r in
    if ((state <? 9) && (32 <? state))%bool then ret ERROR_NETWORK_RSSI
    else ret NO_ERROR
  else ret ERROR_REPLY.

(** The body of the polling loop of [gsm_network_registration]: one
    [AT+CREG?] request, the [switch] on [status], the 15 second delay.
    [status] and [error_status] are the locals of the function. *)
Definition registration_poll (vars : Z * Z) : M (Z * Z) :=
  let '(status, error_status) := vars in
  r <- send_parse_reply "AT+CREG?" "+CREG: " status COMMA 1 DEFAULT_TIMEOUT ;;
  let status := snd r in
  let error_status :=
    if status =? NOT_REGISTERED then ERROR_NETWORK_REGISTRATION
    else if (status =? REGISTERED_HOME_NET) || (status =? REGISTRED_NO_HOME_NET)
    then NO_ERROR
    else if status =? SEARCHING then error_status
    else if status =? REGISTRATION_DENIED then error_status
    else ERROR_REPLY in
  delay_seconds 15 ;;;
  ret (status, error_status).

(** [while (seconds > 0) { ...; seconds -= 15; }] with [seconds] a [uint8_t].
    [fuel] only makes the recursion structural: from the start value 30 of
    the source the loop ends after two rounds. *)
Fixpoint registration_while (fuel : nat) (seconds : Z) (vars : Z * Z) : M (Z * Z) :=
  match fuel with
  | O => ret vars
  | S fuel' =>
      if 0 <? seconds then
        vars' <- registration_poll vars ;;
        registration_while fuel' (uint8 (seconds - 15)) vars'
      else ret vars
  end.

(** [for (minutes = 0; minutes < 2; minutes++) { seconds = 30; while ... }] *)
Fixpoint registration_for (rounds : nat) (vars : Z * Z) : M (Z * Z) :=
  match rounds with
  | O => ret vars
  | S rounds' =>
      vars' <- registration_while 256 30 vars ;;
      registration_for rounds' vars'
  end.

(** [gsm_network_registration]; the locals [status] and [error_status] are
    not initialised, their indeterminate start values are the arguments. *)
Definition gsm_network_registration (status0 error_status0 : Z) : M Z :=
  vars <- registration_for 2 (status0, error_status0) ;;
  ret (snd vars).

(** The first part of [SIM868_gprs_enable], up to the attach request: the
    result is an early return value, if any, and [module_state]. *)
Definition gprs_enable_attach (state : bool) : M (option Z * Z) :=
  r <- send_parse_reply "AT+CGATT?" "+CGATT: " 0 COMMA 0 20000 ;;
  if fst r =? 0 then
    let module_state := snd r in
    if (state && (module_state =? 0))%bool then
      bad <- send_check_reply "AT+CGATT=1" "OK" 20000 ;;
      if bad : bool then ret (Some ERROR_GPRS_SERVICE, module_state)
      else ret (None, module_state)
    else ret (None, module_state)
  else ret (Some ERROR_REPLY, snd r).

(** The open sequence of [SIM868_gprs_enable]. *)
Definition gprs_enable_open : M Z :=
  bad <- send_check_reply cmd_contype "OK" 10000 ;;
  if bad : bool then ret ERROR_REPLY else
  cfg <- gets gs_bearer_config ;;
  bad <- send_check_reply (cmd_sapbr_set "APN" (apn cfg)) "OK" 10000 ;;
  if bad : bool then ret ERROR_REPLY else
  bad <- send_check_reply (cmd_sapbr_set "USER" (user cfg)) "OK" 10000 ;;
  if bad : bool then ret ERROR_REPLY else
  bad <- send_check_reply (cmd_sapbr_set "PWD" (pwd cfg)) "OK" 10000 ;;
  if bad : bool then ret ERROR_REPLY else
  bad <- send_check_reply cmd_open_bearer "OK" 30000 ;;
  if bad : bool then ret ERROR_GPRS_CONTEXT else
  q <- gprs_query ;;
  if negb (q =? CONNECTED) then ret ERROR_GPRS_CONTEXT else ret NO_ERROR.

(** The close sequence; the [error_status] it sets when the bearer is not
    reported closed is never returned, so the result is only the early
    return. *)
Definition gprs_enable_close : M Z :=
  bad <- send_check_reply cmd_close_bearer "OK" 30000 ;;
  if bad : bool then ret ERROR_GPRS_CONTEXT else
  gprs_query ;;;
  ret NO_ERROR.

(** The last part of [SIM868_gprs_enable]: detach, delay, return. *)
Definition gprs_enable_detach (state : bool) (module_state : Z) : M Z :=
  if (negb state && negb (module_state =? 0))%bool then
    bad <- send_check_reply "AT+CGATT=0" "OK" 20000 ;;
    if bad : bool then ret ERROR_GPRS_SERVICE
    else debug_delay DEBUG_SHORT_DELAY ;;; ret NO_ERROR
  else debug_delay DEBUG_SHORT_DELAY ;;; ret NO_ERROR.

(** [SIM868_gprs_enable(state)] *)
Definition SIM868_gprs_enable (state : bool) : M Z :=
  a <- gprs_enable_attach state ;;
  match fst a with
  | Some e => ret e
  | None =>
      let module_state := snd a in
      q <- gprs_query ;;
      let bearer_state := uint8 q in
      if (state && (bearer_state =? CLOSED))%bool then
        e <- gprs_enable_open ;;
        if e =? NO_ERROR then gprs_enable_detach state module_state else ret e
      else if (negb state && (bearer_state =? CONNECTED))%bool then
        e <- gprs_enable_close ;;
        if e =? NO_ERROR then gprs_enable_detach state module_state else ret e
      else gprs_enable_detach state module_state
  end.

(** ** HTTP *)

Definition cmd_http_data : string := "AT+HTTPDATA=200,8000".

(** [http_init] *)
Definition http_init : M Z :=
  modify (fun w => log_call w Fn_http_init) ;;;
  send_check_reply "AT+HTTPTERM" "OK" DEFAULT_TIMEOUT ;;;
  bad <- send_check_reply "AT+HTTPINIT" "OK" DEFAULT_TIMEOUT ;;
  if bad : bool then ret ERROR_HTTP_SERVICE else
  bad <- send_check_reply ("AT+HTTPPARA=" ++ quoted "CID" ++ ",1") "OK" DEFAULT_TIMEOUT ;;
  if bad : bool then ret ERROR_REPLY else
  h <- gets gs_http_header ;;
  bad <- send_check_reply (cmd_http_para "UA" (user_agent h)) "OK" DEFAULT_TIMEOUT ;;
  if bad : bool then ret ERROR_REPLY else
  bad <- send_check_reply (cmd_http_para "CONTENT" (content_type h)) "OK" DEFAULT_TIMEOUT ;;
  if bad : bool then ret ERROR_REPLY else
  bad <- send_check_reply (cmd_http_para "USERDATA" (user_data h)) "OK" DEFAULT_TIMEOUT ;;
  if bad : bool then ret ERROR_REPLY else
  bad <- send_check_reply (cmd_http_para "URL" (root h ++ web_service h)) "OK" DEFAULT_TIMEOUT ;;
  if bad : bool then ret ERROR_REPLY else
  ret NO_ERROR.

(** The POST preamble of [http_action]: declaration, then the payload. *)
Definition http_action_post : M Z :=
  bad <- send_check_reply cmd_http_data "DOWNLOAD" DEFAULT_TIMEOUT ;;
  if bad : bool then ret ERROR_REPLY else
  h <- gets gs_http_header ;;
  bad <- send_check_reply (json_structure h) "OK" 16000 ;;
  if bad : bool then ret ERROR_JSON_STRUCTURE else
  ret NO_ERROR.

(** The request itself and the status line of [http_action]. *)
Definition http_action_request (time_out method : Z) : M Z :=
  bad <- send_check_reply ("AT+HTTPACTION=" ++ utoa method) "OK" time_out ;;
  if bad : bool then ret ERROR_HTTP_REQUEST else
  read_line time_out SINGLE_LINE ;;;
  r <- parse_reply "+HTTPACTION: " 0 COMMA 1 ;;
  if negb (fst r =? 0) then ret ERROR_REPLY else
  let status := snd r in
  if (status =? OK) || (status =? CREATED) then ret NO_ERROR else
  modify (fun w => set_http_status_code w status) ;;;
  ret ERROR_HTTP_STATUS_CODE.

(** [http_action(time_out, method)] *)
Definition http_action (time_out method : Z) : M Z :=
  modify (fun w => log_call w Fn_http_action) ;;;
  if negb (uint8 method =? 0) then
    e <- http_action_post ;;
    if e =? NO_ERROR then http_action_request time_out (uint8 method) else ret e
  else http_action_request time_out (uint8 method).

(** [http_read_all] *)
Definition http_read_all : M Z :=
  modify (fun w => log_call w Fn_http_read_all) ;;;
  get_reply "AT+HTTPREAD" DEFAULT_TIMEOUT ;;;
  buf <- gets (fun w => cstr (g_sim_buffer w)) ;;
  match strstr buf "+HTTPREAD: " with
  | None => ret ERROR_REPLY
  | Some _ =>
      read_line 5000 SINGLE_LINE ;;;
      modify (fun w => set_http_buffer w (cstr (g_sim_buffer w))) ;;;
      ret NO_ERROR
  end.

(** [http_start(method)] *)
Definition http_start (method : Z) : M Z :=
  modify (fun w => log_call w Fn_http_start) ;;;
  e <- http_action 30000 method ;;
  if negb (e =? 0) then ret e else
  e <- http_read_all ;;
  if negb (e =? 0) then ret e else
  bad <- send_check_reply "AT+HTTPTERM" "OK" DEFAULT_TIMEOUT ;;
  if bad : bool then ret ERROR_REPLY else
  debug_delay DEBUG_SHORT_DELAY ;;;
  ret NO_ERROR.

(** The first [while (attempts--)] loop of [SIM868_http_send_request].  The
    argument [attempts] is the value before the loop test.  The result is
    the value returned from inside the loop, if any, and [error_status]. *)
Fixpoint http_init_retry (attempts : nat) (error_status : Z) : M (option Z * Z) :=
  match attempts with
  | O => ret (None, error_status)
  | S attempts' =>
      e <- http_init ;;
      if e =? NO_ERROR then ret (None, e)
      else if Nat.eqb attempts' 0 then ret (Some ERROR_HTTP_SERVICE, e)
      else http_init_retry attempts' e
  end.

(** The second loop; [if (attempts-- == 0)] decrements once more after a
    failed attempt. *)
Fixpoint http_start_retry (attempts : nat) (method : Z) (error_status : Z)
  : M (option Z * Z) :=
  match attempts with
  | O => ret (None, error_status)
  | S attempts' =>
      e <- http_start method ;;
      if e =? NO_ERROR then ret (None, e)
      else match attempts' with
           | O => ret (Some ERROR_HTTP_REQUEST, e)
           | S attempts'' => http_start_retry attempts'' method e
           end
  end.

(** [SIM868_http_send_request(method, max_attempts)]; the local
    [error_status] is not initialised, [error_status0] is its indeterminate
    start value. *)
Definition SIM868_http_send_request (error_status0 : Z) (method max_attempts : Z)
  : M Z :=
  r <- http_init_retry (Z.to_nat (uint8 max_attempts)) error_status0 ;;
  match fst r with
  | Some e => ret e
  | None =>
      r' <- http_start_retry (Z.to_nat (uint8 max_attempts)) method (snd r) ;;
      match fst r' with
      | Some e => ret e
      | None => ret (snd r')
      end
  end.

(** [SIM868_http_set_json_structure] *)
Definition SIM868_http_set_json_structure (json : string) : M unit :=
  modify (fun w =>
    let h := gs_http_header w in
    set_http_header w (mkHttpHeader (user_agent h) (user_data h) (content_type h)
                                    (root h) (web_service h) json)).

(** ** Doubles

    [double] is IEEE 754 binary64, with the operations of the standard
    library's executable specification (round to nearest even). *)

Module Double.

Definition prec : Z := 53.
Definition emax : Z := 1024.

Definition of_Z (z : Z) : spec_float := binary_normalize prec emax z 0 false.
Definition mul : spec_float -> spec_float -> spec_float := SFmul prec emax.
Definition div : spec_float -> spec_float -> spec_float := SFdiv prec emax.

(** The literal [1.852]: the double nearest to 1852/1000. *)
Definition kph_per_knot : spec_float := div (of_Z 1852) (of_Z 1000).

(** Conversion to an integer type discards the fractional part. *)
Definition trunc (x : spec_float) : option Z :=
  match x with
  | S754_zero _ => Some 0
  | S754_finite s m e =>
      let a := match e with
               | Z0 => Zpos m
               | Zpos k => Zpos m * 2 ^ Zpos k
               | Zneg k => Zpos m / 2 ^ Zpos k
               end in
      Some (if s then - a else a)
  | _ => None
  end.


(** Digits of a decimal numeral: the accumulated value, the number of
    digits read and the rest of the text. *)
Fixpoint digits (s : string) (acc : Z) (n : nat) : Z * nat * string :=
  match s with
  | String c t => if isdigit c then digits t (10 * acc + digit_val c) (S n)
                  else (acc, n, s)
  | EmptyString => (acc, n, s)
  end.

Definition starts_with_any (cs : list ascii) (s : string) : bool :=
  match s with
  | String c _ => existsb (Ascii.eqb c) cs
  | EmptyString => false
  end.

(** [atof] on plain decimal numerals [ddd.ddd] with an optional sign, the
    form of NMEA fields.  With at most 53 bits of digits and at most 22
    decimals both the digits and the power of ten are doubles, and the
    correctly rounded quotient is the correctly rounded value of the
    numeral.  Exponents, hexadecimal numerals, infinities, NaNs and longer
    numerals are outside this model ([None]). *)
Definition atof (s : string) : option spec_float :=
  let s1 := skip_space s in
  let '(neg, s2) :=
    match s1 with
    | String c t => if Ascii.eqb c "-" then (true, t)
                    else if Ascii.eqb c "+" then (false, t) else (false, s1)
    | EmptyString => (false, s1)
    end in
  let '(ip, ni, s3) := digits s2 0 0 in
  let '(m, nf, s4) :=
    match s3 with
    | String c t => if Ascii.eqb c "." then digits t ip 0 else (ip, O, s3)
    | EmptyString => (ip, O, s3)
    end in
  if (Nat.eqb (ni + nf) 0 && starts_with_any ["i"; "I"; "n"; "N"]%char s4)%bool then None
  else if starts_with_any ["e"; "E"; "x"; "X"]%char s4 then None
  else if (2 ^ 53 <=? m) || (Nat.ltb 22 nf) then None
  else if m =? 0 then Some (S754_zero neg)
  else Some (div (of_Z (if neg then - m else m)) (of_Z (10 ^ Z.of_nat nf))).

End Double.

(** ** GNSS *)

(** [struct GNSS_Data_Time]; all fields are [uint8_t]. *)
Record GNSS_Data_Time := mkDateTime {
  seconds : Z;
  minutes : Z;
  hour : Z;
  day : Z;
  month : Z;
  year : Z
}.

Definition g_utc_hours : list Z := [0; 1; 2; 3; 4; 5].
Definition g_fix_hours : list Z := [18; 19; 20; 21; 22; 23].
Definition g_last_day_month : list Z :=
  [0; 31; 28; 31; 30; 31; 30; 31; 31; 30; 31; 30; 31].

(** [if (minutes == 59) { if (hour < 23) hour += 1; else hour = 0; }] *)
Definition gnss_hour_about_to_change (minutes hour : Z) : Z :=
  if minutes =? 59 then
    if hour <? 23 then uint8 (hour + 1) else 0
  else hour.

(** [for (i = 0; i < 6; i++) if (hour == g_utc_hours[i]) hour = g_fix_hours[i];]
    [n] iterations are left and [i] is the loop index. *)
Fixpoint gnss_hour_table_loop (n : nat) (i : nat) (hour : Z) : Z :=
  match n with
  | O => hour
  | S n' =>
      gnss_hour_table_loop n' (S i)
        (if hour =? nth i g_utc_hours 0 then nth i g_fix_hours 0 else hour)
  end.

(** The adjustment to UTC-6: the new hour and [one_more_day]. *)
Definition gnss_hour_utc6 (hour : Z) : Z * bool :=
  if 6 <=? hour then (uint8 (hour - 6), false)
  else (gnss_hour_table_loop 6 0 hour, true).

(** [for (i = 0; i < 13; i++) if (month == i) day = g_last_day_month[i];] *)
Fixpoint gnss_last_day_loop (n : nat) (i : nat) (month day : Z) : Z :=
  match n with
  | O => day
  | S n' =>
      gnss_last_day_loop n' (S i) month
        (if month =? Z.of_nat i then nth i g_last_day_month 0 else day)
  end.

(** The [if (one_more_day)] block at the end of [SIM868_gnss_get_data]:
    the new day, month and year. *)
Definition gnss_one_day_less (one_more_day : bool) (day month year : Z) : Z * Z * Z :=
  if one_more_day then
    if day =? 1 then
      let '(month', year') :=
        if 1 <? month then (uint8 (month - 1), year) else (12, uint8 (year - 1)) in
      (gnss_last_day_loop 13 0 month' day, month', year')
    else (uint8 (day - 1), month, year)
  else (day, month, year).

(** The time part of [SIM868_gnss_get_data]: from the characters of the
    time field to seconds, minutes, hour and [one_more_day].  The arrays
    [sec], [min] and [hour] hold two characters without a terminator; the
    model lets [atoi] read exactly those two. *)
Definition two_chars (s : string) (i : nat) : string := String.substring i 2 s.

Definition gnss_time (timep : string) : Z * Z * Z * bool :=
  let seconds := uint8 (atoi (two_chars timep 4)) in
  let minutes := uint8 (atoi (two_chars timep 2)) in
  let hour := uint8 (atoi (two_chars timep 0)) in
  let '(hour', one_more_day) := gnss_hour_utc6 (gnss_hour_about_to_change minutes hour) in
  (seconds, minutes, hour', one_more_day).

(** The date part: day, month and year after the rollback. *)
Definition gnss_date (one_more_day : bool) (datep : string) : Z * Z * Z :=
  let day := uint8 (atoi (two_chars datep 0)) in
  let month := uint8 (atoi (two_chars datep 2)) in
  let year := uint8 (atoi (two_chars datep 4)) in
  gnss_one_day_less one_more_day day month year.

(** [*speed_kph = atof(speedp) * 1.852;] with [uint8_t *speed_kph]: the
    double product is converted to [uint8_t], which is defined when the
    truncated value fits ([None] otherwise, and outside the [atof] model). *)
Definition gnss_speed_kph (speedp : string) : option Z :=
  match Double.atof speedp with
  | None => None
  | Some knots =>
      match Double.trunc (Double.mul knots Double.kph_per_knot) with
      | Some v => if (0 <=? v) && (v <=? 255) then Some v else None
      | None => None
      end
  end.

(** [strtok(NULL, delimiter)] *)
Definition strtok_next (resume : option string) : option (string * option string) :=
  match resume with
  | None => None
  | Some p => strtok p COMMA
  end.

(** What a call of [SIM868_gnss_get_data] leaves behind. *)
Record GnssData := mkGnssData {
  gs_gnss_data_time : GNSS_Data_Time;
  speed_kph : option Z;        (* the byte stored through [speed_kph], if any *)
  returned_false : bool;       (* one of the [return false] was taken *)
  gnss_undefined : bool        (* atof(NULL), or a conversion out of range *)
}.

(** [SIM868_gnss_get_data], on the contents of [g_gnss_buffer] and the
    previous date and time.  Latitude and longitude are consumed but their
    values are not modelled. *)
Definition SIM868_gnss_get_data (g_gnss_buffer : string) (old : GNSS_Data_Time)
  : GnssData :=
  let stop dt sp := mkGnssData dt sp true false in
  match strtok g_gnss_buffer COMMA with
  | None => stop old None
  | Some (_, r1) =>
  match strtok_next r1 with
  | None => stop old None
  | Some (timep, r2) =>
  let '(s, m, h, one_more_day) := gnss_time timep in
  let dt := mkDateTime s m h (day old) (month old) (year old) in
  match strtok_next r2 with
  | None => stop dt None
  | Some (_, r3) =>
  match strtok_next r3 with
  | None => stop dt None
  | Some (latp, r4) =>
  match strtok_next r4 with
  | None => stop dt None
  | Some (latdir, r5) =>
  match strtok_next r5 with
  | None => stop dt None
  | Some (longp, r6) =>
  match strtok_next r6 with
  | None => stop dt None
  | Some (longdir, r7) =>
  match strtok_next r7 with
  | None => mkGnssData dt None false true
  | Some (speedp, r8) =>
  let sp := gnss_speed_kph speedp in
  let ub := match sp with None => true | Some _ => false end in
  match strtok_next r8 with
  | None => mkGnssData dt sp true ub
  | Some (_, r9) =>
  match strtok_next r9 with
  | None => mkGnssData dt sp true ub
  | Some (datep, _) =>
  let '(d, mo, y) := gnss_date one_more_day datep in
  mkGnssData (mkDateTime s m h d mo y) sp false ub
  end end end end end end end end end end.

(** ** Sample modems and worlds *)

Definition blank_buffer : list ascii := replicate REPLY_BUFFER_LENGTH NUL.

(** A header whose JSON payload is 10 bytes long. *)
Definition sample_header : Http_Header :=
  mkHttpHeader "tracker" "key: 1" "application/json" "http://host" "/api"
               "[12345678]".

Definition sample_bearer : Bearer_Service :=
  mkBearer "internet.itelcel.com" "webgprs" "webgprs2003".

(** The state after reset, attached to a given modem. *)
Definition power_on (m : list string -> nat -> list ascii) : World :=
  mkWorld m 0 [] [] blank_buffer EmptyString 0 sample_header sample_bearer [] [].

(** A modem that never answers. *)
Definition silent_modem : list string -> nat -> list ascii := fun _ _ => [].

(** The command line the driver sent last (the string before the CRLF). *)
Definition last_command (sent : list string) : string :=
  match rev sent with
  | _ :: c :: _ => c
  | _ => EmptyString
  end.

Definition reply_line (s : string) : list ascii :=
  list_ascii_of_string (CRLF ++ s ++ CRLF).

(** A modem that answers within the first millisecond after a command,
    with a line chosen from what was sent. *)
Definition answering (answer : list string -> string) : list string -> nat -> list ascii :=
  fun sent ms => if Nat.eqb ms 0 then reply_line (answer sent) else [].

(** Signal quality 5: below the usable range. *)
Definition weak_signal_modem : list string -> nat -> list ascii :=
  answering (fun _ => "+CSQ: 5,0").

(** Registration status by poll number: the k-th [AT+CREG?] is answered
    with the k-th status of the list (status 2 once the list is used up). *)
Definition creg_modem (statuses : list Z) : list string -> nat -> list ascii :=
  answering (fun sent =>
    let k := List.length (List.filter (String.eqb "AT+CREG?") sent) in
    "+CREG: 0," ++ utoa (nth (k - 1) statuses 2)).

(** A modem with a fixed attach state and bearer state. *)
Definition bearer_modem (attached bearer : Z) : list string -> nat -> list ascii :=
  answering (fun sent =>
    let c := last_command sent in
    if String.eqb c "AT+CGATT?" then "+CGATT: " ++ utoa attached
    else if String.eqb c cmd_query_bearer
         then "+SAPBR: 1," ++ utoa bearer ++ "," ++ quoted "10.0.0.1"
         else "OK").

(** A modem that sends 255 letters, one per millisecond, and no line end:
    a reply line longer than the session buffer. *)
Definition flooding_modem : list string -> nat -> list ascii :=
  fun _ ms => if Nat.ltb ms 255 then ["A"%char] else [].

(** A world whose session buffer holds a given reply. *)
Definition with_reply (s : string) : World :=
  set_sim_buffer (power_on silent_modem)
    (list_ascii_of_string s ++ replicate (REPLY_BUFFER_LENGTH - String.length s) NUL).

(** An RMC sentence as [gnss_read_data] leaves it in [g_gnss_buffer]:
    23:59:59 UTC on 1 March 2024, 10.0 knots. *)
Definition sample_rmc : string :=
  "C,235959.000,A,4916.45,N,12311.12,W,10.0,054.7,010324,,,A*6C".

Definition stale_date_time : GNSS_Data_Time := mkDateTime 0 0 0 0 0 0.

(** * The rest of the driver *)

(** ** Autobaud *)

(** [while (_sim_data_available()) _sim_read_buffer();] *)
Definition sim_flush : M unit := modify (fun w => set_rx w []).

(** The [while (time_out > 0)] loop of [SIM868_init], [time_out] a
    [uint16_t] that starts at 2000 and loses 500 per round; [fuel] only
    makes the recursion structural. *)
Fixpoint autobaud_loop (fuel : nat) (time_out : Z) : M unit :=
  match fuel with
  | O => ret tt
  | S fuel' =>
      if 0 <? time_out then
        sim_flush ;;;
        bad <- send_check_reply "AT" "OK" DEFAULT_TIMEOUT ;;
        if negb bad then ret tt else
        sim_flush ;;;
        bad <- send_check_reply "AT" "AT" DEFAULT_TIMEOUT ;;
        if negb bad then ret tt else
        debug_delay 500 ;;;
        autobaud_loop fuel' (uint16 (time_out - 500))
      else ret tt
  end.

(** [SIM868_init] *)
Definition SIM868_init : M Z :=
  autobaud_loop 8 2000 ;;;
  send_check_reply "ATE0" "OK" DEFAULT_TIMEOUT ;;;
  debug_delay 100 ;;;
  bad <- send_check_reply "ATE0" "OK" DEFAULT_TIMEOUT ;;
  if bad : bool then ret ERROR_AUTOBAUD_MODE
  else debug_delay DEBUG_SHORT_DELAY ;;; ret NO_ERROR.

(** ** SIM card *)

(** [sim_card_enable] *)
Definition sim_card_enable : M Z :=
  r <- send_parse_reply "AT+CSDT?" "+CSDT: " 0 COMMA 0 DEFAULT_TIMEOUT ;;
  if negb (fst r =? 0) then ret ERROR_REPLY else
  if negb (snd r =? 1) then
    bad <- send_check_reply "AT+CSDT=1" "OK" DEFAULT_TIMEOUT ;;
    if bad : bool then ret ERROR_REPLY else ret NO_ERROR
  else ret NO_ERROR.

(** [sim_card_status] *)
Definition sim_card_status : M Z :=
  r <- send_parse_reply "AT+CSMINS?" "+CSMINS: " 0 COMMA 1 DEFAULT_TIMEOUT ;;
  if negb (fst r =? 0) then ret ERROR_REPLY else
  if negb (snd r =? 1) then ret ERROR_SIMCARD_STATUS else ret NO_ERROR.

(** [sim_card_pin] *)
Definition sim_card_pin : M Z :=
  get_reply "AT+CPIN?" 5000 ;;;
  buf <- gets (fun w => cstr (g_sim_buffer w)) ;;
  match strstr buf "+CPIN: " with
  | None => ret ERROR_REPLY
  | Some p =>
      if negb (strcmp_eq (advance (strlen "+CPIN: ") p) "READY")
      then ret ERROR_SIMCARD_PIN else ret NO_ERROR
  end.

(** [SIM868_sim_card_init] *)
Definition SIM868_sim_card_init : M Z :=
  e <- sim_card_enable ;;
  if negb (e =? 0) then ret e else
  e <- sim_card_status ;;
  if negb (e =? 0) then ret e else
  e <- sim_card_pin ;;
  if negb (e =? 0) then ret e else
  debug_delay DEBUG_SHORT_DELAY ;;;
  ret e.

(** ** Network selection and bring-up *)

(** [enum Bearer_Service_Provider] *)
Definition M2M : Z := 0.
Definition ATT : Z := 1.
Definition IUSACELL : Z := 2.
Definition TELCEL : Z := 3.
Definition MOVISTAR : Z := 4.

(** [SIM868_gprs_set_apn(serivce)]; the [default] case only prints. *)
Definition SIM868_gprs_set_apn (serivce : Z) : M unit :=
  modify (fun w =>
    let s := uint8 serivce in
    if s =? M2M then set_bearer_config w (mkBearer "m2m.amx" "jasper" "jasper")
    else if s =? ATT then set_bearer_config w (mkBearer "modem.nexteldata.com.mx" " " " ")
    else if s =? IUSACELL then set_bearer_config w (mkBearer "modem.nexteldata.com.mx" " " " ")
    else if s =? MOVISTAR then set_bearer_config w (mkBearer "internet.movistar.mx" "movistar" "movistar")
    else if s =? TELCEL then set_bearer_config w (mkBearer "internet.itelcel.com" "webgprs" "webgprs2003")
    else w).



(** ** GNSS receiver *)

(** The globals [gnss_read_data] works on.  Stores past the end of the
    255-byte buffer are undefined and only recorded. *)
Record Gnss := mkGnss {
  g_gnss_buffer : list ascii;                (* char g_gnss_buffer[REPLY_BUFFER_LENGTH] *)
  g_gnss_is_data_fixed : Z;
  gnss_out_of_bounds : list (nat * ascii)
}.

(** The locals of [gnss_read_data]; [cnt] and [gnss_idx] are [uint8_t]. *)
Record GnssScan := mkScan {
  cnt : Z;
  gnss_idx : Z;
  gnrmcR : bool;
  gnrmcM : bool;
  gnrmcC : bool
}.

Definition gnss_scan_start : GnssScan := mkScan 0 0 false false false.

(** [g_gnss_buffer[gnss_idx++] = incoming_char] *)
Definition store_gnss_buffer (i : nat) (c : ascii) (g : Gnss) : Gnss :=
  if Nat.ltb i REPLY_BUFFER_LENGTH
  then mkGnss (<[i := c]> (g_gnss_buffer g)) (g_gnss_is_data_fixed g)
              (gnss_out_of_bounds g)
  else mkGnss (g_gnss_buffer g) (g_gnss_is_data_fixed g)
              (gnss_out_of_bounds g ++ [(i, c)]).

Definition set_fixed (g : Gnss) (v : Z) : Gnss :=
  mkGnss (g_gnss_buffer g) v (gnss_out_of_bounds g).

(** The three flag updates made for a character while [gnrmcC] is clear. *)
Definition gnss_flags (c : ascii) (l : GnssScan) : GnssScan :=
  if gnrmcC l then l else
  let r := (gnrmcR l || Ascii.eqb c "R")%bool in
  let m := (gnrmcM l || (Ascii.eqb c "M" && r))%bool in
  let k := (Ascii.eqb c "C" && m)%bool in
  mkScan (cnt l) (gnss_idx l) r m k.

(** The [while (1)] loop of [gnss_read_data] over the bytes the GNSS UART
    delivers after [_gnss_clear_buffer()], in order.  The loop waits for
    data without a time limit: when the bytes run out before the sentence
    ends the function does not return ([None]).  Otherwise the result is
    the state at the [break] and the bytes not yet read. *)
Fixpoint gnss_read_loop (incoming : list ascii) (l : GnssScan) (g : Gnss)
  : option (Gnss * list ascii) :=
  match incoming with
  | [] => None
  | incoming_char :: rest =>
      let l := gnss_flags incoming_char l in
      if gnrmcC l then
        if Ascii.eqb incoming_char CR then Some (g, rest)
        else if Ascii.eqb incoming_char "V" then Some (set_fixed g 0, rest)
        else
          let '(cnt', g') :=
            if Ascii.eqb incoming_char "A"
            then (uint8 (cnt l + 1), if cnt l =? 30 then set_fixed g 1 else g)
            else (cnt l, g) in
          gnss_read_loop rest
            (mkScan cnt' (uint8 (gnss_idx l + 1)) (gnrmcR l) (gnrmcM l) (gnrmcC l))
            (store_gnss_buffer (Z.to_nat (gnss_idx l)) incoming_char g')
      else gnss_read_loop rest l g
  end.

(** [gnss_read_data] *)
Definition gnss_read_data (incoming : list ascii) (g : Gnss)
  : option (Gnss * list ascii) :=
  gnss_read_loop incoming gnss_scan_start g.

(** [SIM868_gnss_get_fix_status] *)
Definition SIM868_gnss_get_fix_status (incoming : list ascii) (g : Gnss)
  : option (Z * Gnss * list ascii) :=
  match gnss_read_data incoming g with
  | None => None
  | Some (g', rest) => Some (g_gnss_is_data_fixed g', g', rest)
  end.

(** The getters of the date and time. *)
Definition SIM868_gnss_get_seconds (dt : GNSS_Data_Time) : Z := seconds dt.
Definition SIM868_gnss_get_minutes (dt : GNSS_Data_Time) : Z := minutes dt.
Definition SIM868_gnss_get_hour (dt : GNSS_Data_Time) : Z := hour dt.
Definition SIM868_gnss_get_day (dt : GNSS_Data_Time) : Z := day dt.
Definition SIM868_gnss_get_month (dt : GNSS_Data_Time) : Z := month dt.
Definition SIM868_gnss_get_year (dt : GNSS_Data_Time) : Z := uint16 (2000 + year dt).

(** ** Power control *)

(** The power key output and the status input of the module.  The status
    line is reactive: its level is a function of the levels written to the
    power key so far and of the milliseconds since the last write. *)
Record Gpio := mkGpio {
  sim_status : list Z -> nat -> bool;
  power_writes : list Z;            (* values passed to _sim_power, oldest first *)
  since_write : nat                 (* milliseconds since the last write *)
}.

(** The serial link together with the pins. *)
Record Board := mkBoard {
  uart : World;
  gpio : Gpio
}.

(** [_debug_delay(ms)] with the pins in view. *)
Definition board_delay (ms : Z) (b : Board) : Board :=
  mkBoard (snd (debug_delay ms (uart b)))
          (mkGpio (sim_status (gpio b)) (power_writes (gpio b))
                  (since_write (gpio b) + Z.to_nat ms)).

(** [_sim_power(level)] *)
Definition sim_power (level : Z) (b : Board) : Board :=
  mkBoard (uart b)
          (mkGpio (sim_status (gpio b)) (power_writes (gpio b) ++ [level]) 0).

(** [_sim_state()] *)
Definition sim_state (b : Board) : bool :=
  sim_status (gpio b) (power_writes (gpio b)) (since_write (gpio b)).

(** [SIM868_get_state] *)
Definition SIM868_get_state (b : Board) : Z := if sim_state b then 1 else 0.

(** [sim_change_state]: a pulse of two seconds on the power key. *)
Definition sim_change_state (b : Board) : Board :=
  board_delay 100 (sim_power 0 (board_delay 2000 (sim_power 1 b))).

(** The [while (time_out--)] loops of [sim_power_up] ([want = true]) and
    [sim_power_dowm] ([want = false]): poll the status line once per
    millisecond until it shows the wanted level.  [time_out] is the value
    before the test and [error_status] the local of that name. *)
Fixpoint sim_power_poll (time_out : nat) (want : bool) (error_status : Z)
    (b : Board) : Z * Board :=
  match time_out with
  | O => (error_status, b)
  | S time_out' =>
      if Bool.eqb (sim_state b) want then (NO_ERROR, b)
      else sim_power_poll time_out' want ERROR_POWER_STATE (board_delay 1 b)
  end.

(** [sim_power_up]; [error_status0] is the start value of the uninitialised
    local. *)
Definition sim_power_up (error_status0 : Z) (b : Board) : Z * Board :=
  sim_power_poll 1000 true error_status0 (sim_change_state b).

(** [sim_power_dowm] *)
Definition sim_power_dowm (error_status0 : Z) (b : Board) : Z * Board :=
  sim_power_poll 1000 false error_status0 (sim_change_state b).

Definition OFF : Z := 0.
Definition ON : Z := 1.
Definition RESET : Z := 2.

(** [SIM868_set_power_level(state)]; [error_status0] is the start value of
    the uninitialised local [error_status]. *)
Definition SIM868_set_power_level (error_status0 : Z) (state : Z) (b : Board)
  : Z * Board :=
  let curr_state := SIM868_get_state b in
  let state := uint8 state in
  if state =? ON then
    if curr_state =? OFF then sim_power_up error_status0 b else (error_status0, b)
  else if state =? OFF then
    if curr_state =? ON then sim_power_dowm error_status0 b else (error_status0, b)
  else if state =? RESET then
    if curr_state =? ON then
      let '(e, b1) := sim_power_dowm error_status0 b in
      if SIM868_get_state b1 =? OFF
      then sim_power_up e (board_delay 2000 b1)
      else (e, b1)
    else if curr_state =? OFF then sim_power_up error_status0 b
    else (error_status0, b)
  else (ERROR_POWER_STATE, b).

(** * Properties *)

Local Open Scope list_scope.

(** ** What a step may change

    [effect w w' sent called]: from [w] to [w'] the driver transmitted the
    strings [sent] and entered the logged functions [called]; the modem,
    the HTTP header and the bearer configuration are the same. *)

Record effect (w w' : World) (sent : list string) (called : list Fn) : Prop :=
  mkEffect {
    eff_modem : modem w' = modem w;
    eff_tx : tx w' = tx w ++ sent;
    eff_header : gs_http_header w' = gs_http_header w;
    eff_bearer : gs_bearer_config w' = gs_bearer_config w;
    eff_calls : calls w' = calls w ++ called
  }.

(** A step that neither transmits nor enters a logged function. *)
Definition quiet (w w' : World) : Prop := effect w w' [] [].

(** [http_init_fails n w w']: starting in [w], [n] calls of [http_init] in
    a row all return an error, and leave the state [w']. *)
Inductive http_init_fails : nat -> World -> World -> Prop :=
| init_fails_O w : http_init_fails O w w
| init_fails_S n w e w1 w' :
    http_init w = (e, w1) -> e <> NO_ERROR ->
    http_init_fails n w1 w' -> http_init_fails (S n) w w'.


(** The commands of the open sequence of [SIM868_gprs_enable]:
    connection type, APN, user name, password, open bearer. *)
Definition bearer_open_sequence (cfg : Bearer_Service) : list string :=
  [cmd_contype; cmd_sapbr_set "APN" (apn cfg); cmd_sapbr_set "USER" (user cfg);
   cmd_sapbr_set "PWD" (pwd cfg); cmd_open_bearer].

(** What a step transmits. *)
Definition sent_by {A} (m : M A) (w : World) : list string :=
  drop (List.length (tx w)) (tx (snd (m w))).



(** The number of occurrences of a character. *)
Fixpoint count_char (c : ascii) (s : string) : nat :=
  match s with
  | EmptyString => O
  | String a t => if Ascii.eqb a c then S (count_char c t) else count_char c t
  end.

(** A field extends up to the next divider or the end of the string. *)
Definition field_upto (divider : ascii) (p : string) : string :=
  fst (split_token p divider).






(** A comma-separated field as [strtok] sees it: not empty, no comma. *)
Definition rmc_field (t : string) : Prop :=
  t <> EmptyString /\ count_char COMMA t = O.

(** The contents of [g_gnss_buffer] with the given fields, each followed by
    a comma, and then [tail]. *)
Definition rmc_buffer (fields : list string) (tail : string) : string :=
  fold_right (fun f acc => (f ++ String COMMA acc)%string) tail fields.

(** A reply line of 255 letters. *)
Definition long_line_modem : list string -> nat -> list ascii :=
  answering (fun _ => string_of_list_ascii (replicate 255 "A"%char)).

(** ** Notions for the rest of the driver *)

(** A character of a reply line: no line end and no NUL. *)
Definition line_char (c : ascii) : Prop := c <> CR /\ c <> LF /\ c <> NUL.

(** A character the line reader drops in front of a line. *)
Definition line_break (c : ascii) : Prop := c = CR \/ c = LF.

(** The stores the line reader makes for the characters of a line, from
    index [idx] on. *)
Fixpoint store_line (idx : nat) (line : list ascii) (w : World) : World :=
  match line with
  | [] => w
  | c :: t => store_line (S idx) t (store_sim_buffer idx c w)
  end.

(** Every command is followed by CR LF on the line. *)
Fixpoint command_lines (cmds : list string) : list string :=
  match cmds with
  | [] => []
  | c :: t => c :: CRLF :: command_lines t
  end.

(** A modem with a ready SIM card: detection on, card inserted, no PIN. *)
Definition sim_ready_modem : list string -> nat -> list ascii :=
  answering (fun sent =>
    let c := last_command sent in
    if String.eqb c "AT+CSDT?" then "+CSDT: 1"
    else if String.eqb c "AT+CSMINS?" then "+CSMINS: 0,1"
    else if String.eqb c "AT+CPIN?" then "+CPIN: READY"
    else "OK").

(** A modem that answers OK to everything. *)
Definition ok_modem : list string -> nat -> list ascii :=
  answering (fun _ => "OK").

(** A modem whose bearer stays connected whatever is asked of it. *)
Definition stuck_bearer_modem : list string -> nat -> list ascii :=
  bearer_modem 0 CONNECTED.

(** A modem that opens the bearer on request: closed until [AT+SAPBR=1,1]
    was sent, connected afterwards. *)
Definition opening_modem : list string -> nat -> list ascii :=
  answering (fun sent =>
    let c := last_command sent in
    if String.eqb c "AT+CGATT?" then "+CGATT: 1"
    else if String.eqb c cmd_query_bearer
         then if existsb (String.eqb cmd_open_bearer) sent
              then ("+SAPBR: 1,1," ++ quoted "10.0.0.1")%string
              else ("+SAPBR: 1,3," ++ quoted "0.0.0.0")%string
         else "OK").


(** [http_start_fails method k w e w']: starting in [w], [k] calls of
    [http_start] in a row ([k] at least one) all return an error, the last
    one [e], and leave the state [w']. *)
Inductive http_start_fails (method : Z) : nat -> World -> Z -> World -> Prop :=
| start_fails_1 w e w1 :
    http_start method w = (e, w1) -> e <> NO_ERROR ->
    http_start_fails method 1 w e w1
| start_fails_S k w e w1 e' w' :
    http_start method w = (e, w1) -> e <> NO_ERROR ->
    http_start_fails method k w1 e' w' ->
    http_start_fails method (S k) w e' w'.

(** The number of entries of [http_start] in a call log. *)
Definition http_starts (called : list Fn) : nat :=
  List.length (List.filter (fun f => match f with Fn_http_start => true | _ => false end)
                           called).

(** A modem that answers OK to everything and reports status 404 for
    every GET. *)
Definition not_found_modem : list string -> nat -> list ascii :=
  fun sent ms =>
    if Nat.eqb ms 0 then
      if String.eqb (last_command sent) "AT+HTTPACTION=0"
      then reply_line "OK" ++ reply_line "+HTTPACTION: 0,404,0"
      else reply_line "OK"
    else [].

(** The number of letters A among the bytes received. *)
Definition letters_A (incoming : list ascii) : nat :=
  List.length (List.filter (Ascii.eqb "A") incoming).

(** The stores [gnss_read_data] makes for the characters of a sentence,
    from index [idx] on. *)
Fixpoint store_gnss_line (idx : nat) (line : list ascii) (g : Gnss) : Gnss :=
  match line with
  | [] => g
  | c :: t => store_gnss_line (S idx) t (store_gnss_buffer idx c g)
  end.

(** The GNSS globals after reset. *)
Definition gnss_power_on : Gnss := mkGnss blank_buffer 0 [].

(** What the receiver sends for [sample_rmc]. *)
Definition sample_nmea : list ascii :=
  list_ascii_of_string
    ("$GNRMC,235959.000,A,4916.45,N,12311.12,W,10.0,054.7,010324,,,A*6C" ++ CRLF)%string.

(** The same moment without a position fix. *)
Definition void_nmea : list ascii :=
  list_ascii_of_string ("$GNRMC,235959.000,V,,,,,,,010324,,,N*5A" ++ CRLF)%string.

(** A module that changes its state [latency] milliseconds after every
    complete pulse on the power key; [on0] is the state at the start. *)
Definition toggling_module (on0 : bool) (latency : nat) : list Z -> nat -> bool :=
  fun writes ms =>
    let pulses := List.length (List.filter (Z.eqb 0) writes) in
    let done := if Nat.leb latency ms then pulses else Nat.pred pulses in
    xorb on0 (Nat.odd done).

(** A module whose status line stays at one level. *)
Definition stuck_module (level : bool) : list Z -> nat -> bool := fun _ _ => level.

(** A board after reset, with a silent modem on the serial link. *)
Definition board_on (pins : list Z -> nat -> bool) : Board :=
  mkBoard (power_on silent_modem) (mkGpio pins [] 0).

(** ** Frame lemmas *)

Lemma effect_refl w : effect w w [] [].
Proof. split; try reflexivity; symmetry; apply app_nil_r. Qed.

Lemma effect_trans w1 w2 w3 s1 s2 c1 c2 :
  effect w1 w2 s1 c1 -> effect w2 w3 s2 c2 -> effect w1 w3 (s1 ++ s2) (c1 ++ c2).
Proof.
  intros [m1 t1 h1 b1 k1] [m2 t2 h2 b2 k2]. split.
  - congruence.
  - rewrite t2, t1. symmetry. apply app_assoc.
  - congruence.
  - congruence.
  - rewrite k2, k1. symmetry. apply app_assoc.
Qed.

Lemma quiet_trans w1 w2 w3 : quiet w1 w2 -> quiet w2 w3 -> quiet w1 w3.
Proof. intros H1 H2. exact (effect_trans _ _ _ _ _ _ _ H1 H2). Qed.

Lemma effect_quiet_r w1 w2 w3 s c : effect w1 w2 s c -> quiet w2 w3 -> effect w1 w3 s c.
Proof.
  intros H1 H2. pose proof (effect_trans _ _ _ _ _ _ _ H1 H2) as H.
  now rewrite !app_nil_r in H.
Qed.

Lemma quiet_set_link w t r : quiet w (set_link w t r).
Proof. split; try reflexivity; symmetry; apply app_nil_r. Qed.

Lemma quiet_set_sim_buffer w b : quiet w (set_sim_buffer w b).
Proof. split; try reflexivity; symmetry; apply app_nil_r. Qed.

Lemma quiet_log_undefined w u : quiet w (log_undefined w u).
Proof. split; try reflexivity; symmetry; apply app_nil_r. Qed.

Lemma quiet_store_sim_buffer i c w : quiet w (store_sim_buffer i c w).
Proof.
  unfold store_sim_buffer. destruct (Nat.ltb i REPLY_BUFFER_LENGTH).
  - apply quiet_set_sim_buffer.
  - apply quiet_log_undefined.
Qed.

Lemma quiet_tick w : quiet w (tick w).
Proof. apply quiet_set_link. Qed.

Lemma quiet_iter (f : World -> World) :
  (forall w, quiet w (f w)) -> forall n w, quiet w (Nat.iter n f w).
Proof.
  intros Hf n w. induction n as [|n IH].
  - apply effect_refl.
  - change (Nat.iter (S n) f w) with (f (Nat.iter n f w)).
    eapply quiet_trans; [exact IH | apply Hf].
Qed.

Lemma quiet_debug_delay ms w : quiet w (snd (debug_delay ms w)).
Proof. unfold debug_delay, modify. cbn [snd]. apply quiet_iter, quiet_tick. Qed.


Lemma quiet_read_line_drain lines pending : forall idx w,
  quiet w (snd (read_line_drain lines pending idx w)).
Proof.
  induction pending as [|c rest IH]; intros idx w; simpl.
  - apply quiet_set_link.
  - destruct (Ascii.eqb c CR); [apply IH|].
    destruct (Ascii.eqb c LF && (idx =? 0))%bool; [apply IH|].
    destruct (Ascii.eqb c LF && (lines =? 0))%bool; [apply quiet_set_link|].
    eapply quiet_trans; [apply quiet_store_sim_buffer | apply IH].
Qed.

Lemma quiet_read_line_loop lines : forall time_out idx w,
  quiet w (snd (read_line_loop time_out lines idx w)).
Proof.
  induction time_out as [|t IH]; intros idx w; simpl.
  - apply effect_refl.
  - destruct (Z.of_nat REPLY_BUFFER_LENGTH <? idx); [apply effect_refl|].
    pose proof (quiet_read_line_drain lines (rx w) idx w) as Hd.
    destruct (read_line_drain lines (rx w) idx w) as [[eol idx'] w'].
    simpl in Hd.
    destruct (eol || Nat.eqb t 0)%bool; [exact Hd|].
    eapply quiet_trans; [exact Hd|].
    eapply quiet_trans; [apply (quiet_debug_delay 1) | apply IH].
Qed.

Lemma quiet_read_line time_out lines w : quiet w (snd (read_line time_out lines w)).
Proof.
  unfold read_line.
  pose proof (quiet_read_line_loop lines (Z.to_nat (uint16 time_out)) 0 w) as H.
  destruct (read_line_loop _ lines 0 w) as [idx w']. simpl in *.
  eapply quiet_trans; [exact H | apply quiet_store_sim_buffer].
Qed.

Lemma effect_sim_send_data s w : effect w (snd (sim_send_data s w)) [s] [].
Proof. split; try reflexivity. symmetry; apply app_nil_r. Qed.

Lemma effect_get_reply cmd time_out w :
  effect w (snd (get_reply cmd time_out w)) [cmd; CRLF] [].
Proof.
  unfold get_reply, bind, sim_clear_buffer, modify. simpl.
  eapply effect_quiet_r; [|apply quiet_read_line].
  change [cmd; CRLF] with ([] ++ [cmd] ++ [CRLF]).
  change (@nil Fn) with (@nil Fn ++ [] ++ []).
  eapply effect_trans; [apply quiet_set_link|].
  eapply effect_trans; apply effect_sim_send_data.
Qed.

Lemma effect_send_check_reply cmd reply time_out w :
  effect w (snd (send_check_reply cmd reply time_out w)) [cmd; CRLF] [].
Proof.
  unfold send_check_reply, bind, gets, ret.
  pose proof (effect_get_reply cmd time_out w) as H.
  destruct (get_reply cmd time_out w) as [u w']. exact H.
Qed.

Lemma quiet_parse_reply reply v divider index w :
  quiet w (snd (parse_reply reply v divider index w)).
Proof.
  unfold parse_reply.
  destruct (strstr _ reply); [|apply effect_refl].
  destruct (skip_dividers _ _ _); [|apply effect_refl].
  destruct (Nat.ltb 1 _); [|apply effect_refl].
  destruct (strtok _ _) as [[tok [rest|]]|]; simpl.
  - apply quiet_set_sim_buffer.
  - apply effect_refl.
  - apply quiet_log_undefined.
Qed.

Lemma effect_send_parse_reply cmd reply v divider index time_out w :
  effect w (snd (send_parse_reply cmd reply v divider index time_out w)) [cmd; CRLF] [].
Proof.
  unfold send_parse_reply, bind, ret.
  pose proof (effect_get_reply cmd time_out w) as H.
  destruct (get_reply cmd time_out w) as [u w'].
  pose proof (quiet_parse_reply reply v divider index w') as Hp.
  destruct (parse_reply reply v divider index w') as [r w'']. simpl in *.
  destruct (fst r =? 0); simpl; eapply effect_quiet_r; eauto.
Qed.

Lemma effect_eq w w' s s' c c' :
  effect w w' s c -> s = s' -> c = c' -> effect w w' s' c'.
Proof. intros H -> ->. exact H. Qed.

Lemma effect_log_call w f : effect w (log_call w f) [] [f].
Proof. split; try reflexivity. symmetry; apply app_nil_r. Qed.

(** Name the outcome of the next command in the goal and record its effect. *)
Ltac step_check :=
  match goal with
  | |- context [send_check_reply ?c ?r ?t ?w] =>
      let H := fresh "Hstep" in
      let bad := fresh "bad" in
      let w' := fresh "w" in
      pose proof (effect_send_check_reply c r t w) as H;
      destruct (send_check_reply c r t w) as [bad w'];
      cbn [fst snd] in H |- *
  end.

Ltac step_parse :=
  match goal with
  | |- context [send_parse_reply ?c ?r ?v ?d ?i ?t ?w] =>
      let H := fresh "Hstep" in
      let res := fresh "res" in
      let w' := fresh "w" in
      pose proof (effect_send_parse_reply c r v d i t w) as H;
      destruct (send_parse_reply c r v d i t w) as [res w'];
      cbn [fst snd] in H |- *
  end.

(** Compose the recorded effects along the path the run took. *)
Ltac chain :=
  first [ eassumption
        | apply effect_refl
        | eapply effect_trans; [eassumption | chain] ].

Ltac chained := eapply effect_eq; [chain | reflexivity | reflexivity].

Lemma http_init_effect w :
  exists sent, effect w (snd (http_init w)) sent [Fn_http_init].
Proof.
  unfold http_init, bind, modify, gets, ret.
  pose proof (effect_log_call w Fn_http_init) as H0.
  set (w0 := log_call w Fn_http_init) in *. clearbody w0.
  repeat (step_check; try match goal with b : bool |- _ => destruct b end);
    eexists; chained.
Qed.

(** ** HTTP request: the bounded retry loops *)

Lemma http_init_fails_effect n w w' :
  http_init_fails n w w' ->
  exists sent, effect w w' sent (repeat Fn_http_init n).
Proof.
  induction 1 as [w|n w e w1 w' Hrun Hne _ [s2 H2]].
  - exists []. apply effect_refl.
  - destruct (http_init_effect w) as [s1 H1]. rewrite Hrun in H1.
    exists (s1 ++ s2). exact (effect_trans _ _ _ _ _ _ _ H1 H2).
Qed.

(** The first loop, when every attempt fails: it returns from inside the
    loop after exactly [attempts] calls of [http_init]. *)
Lemma http_init_retry_exhausted attempts w w' :
  http_init_fails attempts w w' -> (1 <= attempts)%nat ->
  forall error_status, exists e,
    http_init_retry attempts error_status w = ((Some ERROR_HTTP_SERVICE, e), w').
Proof.
  induction 1 as [w|n w e w1 w' Hrun Hne Hrest IH]; intros Hpos e0; [lia|].
  cbn [http_init_retry]. unfold bind. rewrite Hrun.
  destruct (Z.eqb_spec e NO_ERROR) as [->|_]; [contradiction|].
  destruct n as [|n'].
  - cbn [Nat.eqb]. inversion Hrest; subst. exists e. reflexivity.
  - cbn [Nat.eqb]. apply IH. lia.
Qed.

(** C4: for every [max_attempts] from 1 to 255, when [http_init] fails on
    every one of [max_attempts] attempts, [SIM868_http_send_request]
    returns [ERROR_HTTP_SERVICE] in the state those [max_attempts] calls of
    [http_init] leave, and the logged functions entered are [max_attempts]
    times [http_init] and nothing else: [http_start] (and with it
    [http_action] and [http_read_all]) is never invoked. *)
Theorem http_send_request_init_exhausted
    (error_status0 method : Z) (max_attempts : nat) (w w' : World) :
  (1 <= max_attempts <= 255)%nat ->
  http_init_fails max_attempts w w' ->
  SIM868_http_send_request error_status0 method (Z.of_nat max_attempts) w
    = (ERROR_HTTP_SERVICE, w') /\
  calls w' = calls w ++ repeat Fn_http_init max_attempts.
Proof.
  intros Hrange Hfail.
  assert (Hn : Z.to_nat (uint8 (Z.of_nat max_attempts)) = max_attempts).
  { unfold uint8. rewrite Z.mod_small by lia. apply Nat2Z.id. }
  split.
  - unfold SIM868_http_send_request, bind. rewrite Hn.
    destruct (http_init_retry_exhausted _ _ _ Hfail ltac:(lia) error_status0)
      as [e ->].
    reflexivity.
  - destruct (http_init_fails_effect _ _ _ Hfail) as [sent H].
    apply (eff_calls _ _ _ _ H).
Qed.

(** With a modem that never answers every [http_init] fails; three
    attempts are made. *)
Lemma http_send_request_init_exhausted_witness :
  exists w',
    SIM868_http_send_request 0 POST 3 (power_on silent_modem)
      = (ERROR_HTTP_SERVICE, w') /\
    calls w' = [Fn_http_init; Fn_http_init; Fn_http_init].
Proof.
  eexists.
  apply (http_send_request_init_exhausted 0 POST 3 (power_on silent_modem)).
  - lia.
  - eapply init_fails_S; [vm_compute; reflexivity | discriminate |].
    eapply init_fails_S; [vm_compute; reflexivity | discriminate |].
    eapply init_fails_S; [vm_compute; reflexivity | discriminate |].
    apply init_fails_O.
Defined.

(** C10: with [max_attempts = 0] neither loop body runs.  The call returns
    the indeterminate start value of [error_status], not a value assigned
    by a loop, and leaves the whole state as it was: nothing is sent, no
    function is entered, the session buffer and the HTTP state are
    unchanged. *)
Theorem http_send_request_zero_attempts (error_status0 method : Z) (w : World) :
  SIM868_http_send_request error_status0 method 0 w = (error_status0, w).
Proof. reflexivity. Qed.

(** ** Signal strength *)

(** The window test [state < 9 && state > 32] holds for no value, so the
    RSSI error is never returned. *)
Lemma gprs_network_rssi_never_rssi_error w :
  fst (gprs_network_rssi w) <> ERROR_NETWORK_RSSI.
Proof.
  unfold gprs_network_rssi, bind, ret.
  destruct (send_parse_reply _ _ _ _ _ _ w) as [[e state] w']. cbn [fst snd].
  destruct (e =? 0); [|discriminate].
  destruct (Z.ltb_spec state 9), (Z.ltb_spec 32 state); cbn; (lia || discriminate).
Qed.

(** Every signal quality that is parsed from the reply is accepted. *)
Lemma gprs_network_rssi_parsed w :
  fst (fst (send_parse_reply "AT+CSQ" "+CSQ: " 0 COMMA 0 DEFAULT_TIMEOUT w)) = NO_ERROR ->
  fst (gprs_network_rssi w) = NO_ERROR.
Proof.
  unfold gprs_network_rssi, bind, ret.
  destruct (send_parse_reply _ _ _ _ _ _ w) as [[e state] w']. cbn [fst snd].
  intros ->. cbn [Z.eqb NO_ERROR].
  destruct (Z.ltb_spec state 9), (Z.ltb_spec 32 state); cbn; (lia || reflexivity).
Qed.

(** C1 (the code does not do this): a modem reports signal quality 5, which
    is outside the window from 9 to 32.  The value is parsed from the +CSQ
    reply, and the RSSI check returns [NO_ERROR], not [ERROR_NETWORK_RSSI]. *)
Theorem gprs_network_rssi_accepts_weak_signal :
  fst (send_parse_reply "AT+CSQ" "+CSQ: " 0 COMMA 0 DEFAULT_TIMEOUT
         (power_on weak_signal_modem)) = (NO_ERROR, 5) /\
  fst (gprs_network_rssi (power_on weak_signal_modem)) = NO_ERROR.
Proof. vm_compute. split; reflexivity. Qed.

(** ** Line reader *)

Lemma uint8_range z : 0 <= uint8 z <= 255.
Proof. unfold uint8. pose proof (Z.mod_pos_bound z 256). lia. Qed.

Lemma read_line_drain_index lines pending : forall idx w,
  0 <= idx <= 255 ->
  0 <= snd (fst (read_line_drain lines pending idx w)) <= 255.
Proof.
  induction pending as [|c rest IH]; intros idx w Hidx; simpl; [exact Hidx|].
  destruct (Ascii.eqb c CR); [now apply IH|].
  destruct (Ascii.eqb c LF && (idx =? 0))%bool; [now apply IH|].
  destruct (Ascii.eqb c LF && (lines =? 0))%bool; [exact Hidx|].
  apply IH, uint8_range.
Qed.

Lemma read_line_loop_index lines : forall time_out idx w,
  0 <= idx <= 255 ->
  0 <= fst (read_line_loop time_out lines idx w) <= 255.
Proof.
  induction time_out as [|t IH]; intros idx w Hidx; simpl; [exact Hidx|].
  destruct (Z.of_nat REPLY_BUFFER_LENGTH <? idx); [exact Hidx|].
  pose proof (read_line_drain_index lines (rx w) idx w Hidx) as Hd.
  destruct (read_line_drain lines (rx w) idx w) as [[eol idx'] w'].
  cbn [fst snd] in Hd.
  destruct (eol || Nat.eqb t 0)%bool; [exact Hd|].
  now apply IH.
Qed.

(** The closing NUL goes to an index from 0 to 255: never further than one
    past the last element of the 255-byte buffer. *)
Lemma read_line_end_range time_out lines w :
  0 <= read_line_end time_out lines w <= 255.
Proof. apply read_line_loop_index. lia. Qed.

Lemma store_sim_buffer_length i c w :
  List.length (g_sim_buffer (store_sim_buffer i c w)) = List.length (g_sim_buffer w).
Proof.
  unfold store_sim_buffer. destruct (Nat.ltb i REPLY_BUFFER_LENGTH).
  - apply length_insert.
  - reflexivity.
Qed.

Lemma read_line_drain_length lines pending : forall idx w,
  List.length (g_sim_buffer (snd (read_line_drain lines pending idx w)))
    = List.length (g_sim_buffer w).
Proof.
  induction pending as [|c rest IH]; intros idx w; simpl; [reflexivity|].
  destruct (Ascii.eqb c CR); [apply IH|].
  destruct (Ascii.eqb c LF && (idx =? 0))%bool; [apply IH|].
  destruct (Ascii.eqb c LF && (lines =? 0))%bool; [reflexivity|].
  rewrite IH. apply store_sim_buffer_length.
Qed.

Lemma read_line_loop_length lines : forall time_out idx w,
  List.length (g_sim_buffer (snd (read_line_loop time_out lines idx w)))
    = List.length (g_sim_buffer w).
Proof.
  induction time_out as [|t IH]; intros idx w; simpl; [reflexivity|].
  destruct (Z.of_nat REPLY_BUFFER_LENGTH <? idx); [reflexivity|].
  pose proof (read_line_drain_length lines (rx w) idx w) as Hd.
  destruct (read_line_drain lines (rx w) idx w) as [[eol idx'] w'].
  cbn [snd] in Hd.
  destruct (eol || Nat.eqb t 0)%bool; [exact Hd|].
  rewrite IH. exact Hd.
Qed.

(** Below capacity the line reader does terminate the string: when fewer
    than 255 characters were stored, the closing NUL is in the buffer at
    the index where the reader stopped. *)
Lemma read_line_terminated_below_capacity time_out lines w :
  List.length (g_sim_buffer w) = REPLY_BUFFER_LENGTH ->
  read_line_end time_out lines w < 255 ->
  g_sim_buffer (snd (read_line time_out lines w))
    !! Z.to_nat (read_line_end time_out lines w) = Some NUL.
Proof.
  intros Hlen Hend. unfold read_line, read_line_end in *.
  pose proof (read_line_loop_length lines (Z.to_nat (uint16 time_out)) 0 w) as Hl.
  pose proof (read_line_loop_index lines (Z.to_nat (uint16 time_out)) 0 w
                ltac:(lia)) as Hi.
  destruct (read_line_loop _ lines 0 w) as [idx w']. cbn [fst snd] in *.
  unfold store_sim_buffer.
  destruct (Nat.ltb_spec (Z.to_nat idx) REPLY_BUFFER_LENGTH) as [Hin|Hout].
  - cbn [g_sim_buffer set_sim_buffer]. apply list_lookup_insert_eq.
    rewrite Hl, Hlen. exact Hin.
  - unfold REPLY_BUFFER_LENGTH in Hout. lia.
Qed.

(** C7 (the code does not do this): a reply of 255 letters without a line
    end arrives, one letter per millisecond.  When [read_line] returns at
    the end of its 5000 ms, the closing NUL is written at index 255, one
    past the last element of the 255-byte session buffer, and the buffer
    holds 255 letters and no terminator. *)
Theorem read_line_terminator_out_of_bounds :
  let w' := snd (read_line 5000 SINGLE_LINE (power_on flooding_modem)) in
  read_line_end 5000 SINGLE_LINE (power_on flooding_modem) = 255 /\
  undefined w' = [StoreOutOfBounds 255 NUL] /\
  g_sim_buffer w' = replicate REPLY_BUFFER_LENGTH "A"%char.
Proof. vm_compute. repeat split. Qed.

(** The same through the command transceiver: a reply line of 255 letters
    to [AT] puts the closing NUL at index 255. *)
Lemma send_check_reply_long_line_out_of_bounds :
  undefined (snd (send_check_reply "AT" "OK" DEFAULT_TIMEOUT (power_on long_line_modem)))
    = [StoreOutOfBounds 255 NUL].
Proof. vm_compute. reflexivity. Qed.

(** ** Network registration *)







(** When the last poll leaves [SEARCHING] (or [REGISTRATION_DENIED]) the
    result is what an earlier poll assigned: the same last status gives
    different results. *)
Lemma gsm_network_registration_searching_last :
  fst (gsm_network_registration 7 9 (power_on (creg_modem [1; 1; 1; 2]))) = NO_ERROR /\
  fst (gsm_network_registration 7 9 (power_on (creg_modem [0; 0; 0; 2])))
    = ERROR_NETWORK_REGISTRATION /\
  fst (gsm_network_registration 7 9 (power_on (creg_modem [2; 2; 2; 2]))) = 9.
Proof. vm_compute. repeat split. Qed.

(** ** Bearer *)

Lemma gprs_enable_attach_effect state w :
  exists before,
    effect w (snd (gprs_enable_attach state w)) before [] /\
    (before = ["AT+CGATT?"; CRLF] \/
     before = ["AT+CGATT?"; CRLF; "AT+CGATT=1"; CRLF]).
Proof.
  unfold gprs_enable_attach, bind, ret. step_parse.
  destruct (fst res =? 0); [|eexists; split; [chained | left; reflexivity]].
  destruct (state && (snd res =? 0))%bool;
    [|eexists; split; [chained | left; reflexivity]].
  step_check. destruct bad; eexists; (split; [chained | right; reflexivity]).
Qed.

Lemma gprs_query_effect w :
  effect w (snd (gprs_query w)) [cmd_query_bearer; CRLF] [].
Proof.
  unfold gprs_query, bind, ret. step_parse.
  destruct (fst res =? 0); exact Hstep.
Qed.

Lemma gprs_enable_detach_effect state module_state w :
  exists after,
    effect w (snd (gprs_enable_detach state module_state w)) after [] /\
    (after = [] \/ after = ["AT+CGATT=0"; CRLF]).
Proof.
  unfold gprs_enable_detach, bind, ret.
  destruct (negb state && negb (module_state =? 0))%bool.
  - step_check. destruct bad.
    + eexists; split; [chained | right; reflexivity].
    + pose proof (quiet_debug_delay DEBUG_SHORT_DELAY w0) as Hd.
      destruct (debug_delay DEBUG_SHORT_DELAY w0) as [u w1]. cbn [snd] in *.
      eexists; split; [chained | right; reflexivity].
  - pose proof (quiet_debug_delay DEBUG_SHORT_DELAY w) as Hd.
    destruct (debug_delay DEBUG_SHORT_DELAY w) as [u w1]. cbn [snd] in *.
    eexists; split; [exact Hd | left; reflexivity].
Qed.

(** C8: [SIM868_gprs_enable] leaves a bearer alone that is already in the
    wanted state.  When the attach step does not return early and the
    bearer query reports [CONNECTED] for [enable(true)], or [CLOSED] for
    [enable(false)], the commands sent are the attach query (and possibly
    the attach request), the bearer query, and possibly the detach request:
    no command of the open sequence (connection type, APN, user, password,
    open bearer) and no close-bearer command is among them. *)
Theorem gprs_enable_idempotent
    (state : bool) (w w1 w2 : World) (module_state bearer_status : Z) :
  gprs_enable_attach state w = ((None, module_state), w1) ->
  gprs_query w1 = (bearer_status, w2) ->
  uint8 bearer_status = (if state then CONNECTED else CLOSED) ->
  exists before after,
    tx (snd (SIM868_gprs_enable state w))
      = tx w ++ before ++ [cmd_query_bearer; CRLF] ++ after /\
    (before = ["AT+CGATT?"; CRLF] \/
     before = ["AT+CGATT?"; CRLF; "AT+CGATT=1"; CRLF]) /\
    (after = [] \/ after = ["AT+CGATT=0"; CRLF]) /\
    (forall c, In c (bearer_open_sequence (gs_bearer_config w)) ->
               ~ In c (before ++ [cmd_query_bearer; CRLF] ++ after)) /\
    ~ In cmd_close_bearer (before ++ [cmd_query_bearer; CRLF] ++ after).
Proof.
  intros Hattach Hquery Hstate.
  destruct (gprs_enable_attach_effect state w) as (before & Hb & Hbefore).
  rewrite Hattach in Hb. cbn [snd] in Hb.
  pose proof (gprs_query_effect w1) as Hq. rewrite Hquery in Hq. cbn [snd] in Hq.
  destruct (gprs_enable_detach_effect state module_state w2) as (after & Ha & Hafter).
  assert (Hrun : SIM868_gprs_enable state w = gprs_enable_detach state module_state w2).
  { unfold SIM868_gprs_enable, bind. rewrite Hattach. cbn [fst snd].
    rewrite Hquery. rewrite Hstate.
    destruct state; reflexivity. }
  exists before, after. rewrite Hrun.
  split; [|split; [exact Hbefore | split; [exact Hafter|]]].
  - pose proof (effect_trans _ _ _ _ _ _ _ Hb
                  (effect_trans _ _ _ _ _ _ _ Hq Ha)) as H.
    exact (eff_tx _ _ _ _ H).
  - split.
    + intros c Hopen Hsent.
      destruct Hbefore as [-> | ->], Hafter as [-> | ->];
        cbn in Hopen, Hsent;
        repeat match goal with
               | H : _ \/ _ |- _ => destruct H
               | H : False |- _ => destruct H
               end; subst; discriminate.
    + intros Hsent.
      destruct Hbefore as [-> | ->], Hafter as [-> | ->];
        cbn in Hsent;
        repeat match goal with
               | H : _ \/ _ |- _ => destruct H
               | H : False |- _ => destruct H
               end; discriminate.
Qed.

(** [enable(true)] on an attached modem whose bearer is connected: only
    the two queries are sent. *)
Lemma gprs_enable_idempotent_witness :
  exists before after,
    tx (snd (SIM868_gprs_enable true (power_on (bearer_modem 1 CONNECTED))))
      = [] ++ before ++ [cmd_query_bearer; CRLF] ++ after /\
    (before = ["AT+CGATT?"; CRLF] \/
     before = ["AT+CGATT?"; CRLF; "AT+CGATT=1"; CRLF]) /\
    (after = [] \/ after = ["AT+CGATT=0"; CRLF]) /\
    (forall c, In c (bearer_open_sequence sample_bearer) ->
               ~ In c (before ++ [cmd_query_bearer; CRLF] ++ after)) /\
    ~ In cmd_close_bearer (before ++ [cmd_query_bearer; CRLF] ++ after).
Proof.
  eapply (gprs_enable_idempotent true (power_on (bearer_modem 1 CONNECTED))).
  - vm_compute; reflexivity.
  - vm_compute; reflexivity.
  - reflexivity.
Defined.

(** The same world, evaluated: nothing but the two queries. *)
Lemma gprs_enable_already_in_state :
  tx (snd (SIM868_gprs_enable true (power_on (bearer_modem 1 CONNECTED))))
    = ["AT+CGATT?"; CRLF; cmd_query_bearer; CRLF] /\
  tx (snd (SIM868_gprs_enable false (power_on (bearer_modem 0 CLOSED))))
    = ["AT+CGATT?"; CRLF; cmd_query_bearer; CRLF].
Proof. vm_compute. split; reflexivity. Qed.

(** ** HTTP action *)

Lemma quiet_set_http_status_code w c : quiet w (set_http_status_code w c).
Proof. split; try reflexivity; symmetry; apply app_nil_r. Qed.

Lemma sent_by_effect {A} (m : M A) w sent called :
  effect w (snd (m w)) sent called -> sent_by m w = sent.
Proof.
  intros H. unfold sent_by. rewrite (eff_tx _ _ _ _ H).
  apply drop_app_length.
Qed.

Lemma http_action_request_effect time_out method w :
  exists sent, effect w (snd (http_action_request time_out method w)) sent [].
Proof.
  unfold http_action_request, bind, ret, modify. step_check.
  destruct bad; [eexists; chained|].
  pose proof (quiet_read_line time_out SINGLE_LINE w0) as Hr.
  destruct (read_line time_out SINGLE_LINE w0) as [u w1]. cbn [snd] in Hr.
  pose proof (quiet_parse_reply "+HTTPACTION: " 0 COMMA 1 w1) as Hp.
  destruct (parse_reply "+HTTPACTION: " 0 COMMA 1 w1) as [r w2]. cbn [snd] in Hp.
  destruct (negb (fst r =? 0)); [eexists; chained|].
  destruct ((snd r =? OK) || (snd r =? CREATED))%bool; [eexists; chained|].
  pose proof (quiet_set_http_status_code w2 (snd r)) as Hs.
  cbn [snd]. eexists; chained.
Qed.



(** ** Reply parser *)









(** A divider that [atoi] reads does not end the field: with divider 5 the
    field in front of the first divider of ["+TOK: 152"] is 1, the value
    stored is 152. *)
Lemma parse_reply_digit_divider :
  fst (parse_reply "+TOK: " 0 "5"%char 0 (with_reply "+TOK: 152")) = (NO_ERROR, 152) /\
  atoi (field_upto "5"%char "152") = 1.
Proof. vm_compute. split; reflexivity. Qed.


(** ** GNSS date and time *)

Lemma split_token_field t rest :
  count_char COMMA t = O ->
  split_token (t ++ String COMMA rest) COMMA = (t, Some rest).
Proof.
  induction t as [|a t IH]; cbn [count_char String.append split_token].
  - intros _. rewrite Ascii.eqb_refl. reflexivity.
  - destruct (Ascii.eqb a COMMA); [discriminate|].
    intros H. rewrite (IH H). reflexivity.
Qed.

Lemma strtok_field t rest :
  rmc_field t -> strtok (t ++ String COMMA rest) COMMA = Some (t, Some rest).
Proof.
  intros [Hne Hcount]. unfold strtok.
  destruct t as [|a t]; [contradiction|].
  pose proof (split_token_field (String a t) rest Hcount) as Hs.
  cbn [count_char] in Hcount. cbn [String.append skip_delims] in *.
  destruct (Ascii.eqb a COMMA); [discriminate|].
  rewrite Hs. reflexivity.
Qed.

(** On a sentence with all ten fields, [SIM868_gnss_get_data] reaches its
    end: time and date come from the second and the tenth field, the speed
    from the eighth. *)
Lemma gnss_get_data_fields
    (mode timep valid latp latdir longp longdir speedp track datep tail : string)
    (old : GNSS_Data_Time) :
  Forall rmc_field
    [mode; timep; valid; latp; latdir; longp; longdir; speedp; track; datep] ->
  SIM868_gnss_get_data
    (rmc_buffer [mode; timep; valid; latp; latdir; longp; longdir; speedp; track; datep]
                tail) old
  = let '(s, m, h, one_more_day) := gnss_time timep in
    let '(d, mo, y) := gnss_date one_more_day datep in
    mkGnssData (mkDateTime s m h d mo y) (gnss_speed_kph speedp) false
               (match gnss_speed_kph speedp with None => true | Some _ => false end).
Proof.
  intros Hf.
  repeat match goal with
         | H : Forall _ (_ :: _) |- _ => apply Forall_cons_1 in H as [? H]
         end.
  unfold SIM868_gnss_get_data, rmc_buffer. cbn [fold_right].
  unfold strtok_next.
  repeat (rewrite strtok_field by assumption; cbv beta iota).
  destruct (gnss_time timep) as [[[s m] h] one_more_day].
  repeat (rewrite strtok_field by assumption; cbv beta iota zeta).
  destruct (gnss_date one_more_day datep) as [[d mo] y].
  reflexivity.
Qed.





(** The same instant through the whole of [SIM868_gnss_get_data]: 18:59:59
    on 28 February, although 2024 is a leap year. *)
Lemma gnss_get_data_sample :
  gs_gnss_data_time (SIM868_gnss_get_data sample_rmc stale_date_time)
    = mkDateTime 59 59 18 28 2 24.
Proof. vm_compute. reflexivity. Qed.

(** ** GNSS speed *)





(** The same speed through the whole of [SIM868_gnss_get_data]. *)
Lemma gnss_get_data_sample_speed :
  speed_kph (SIM868_gnss_get_data sample_rmc stale_date_time) = Some 18.
Proof. vm_compute. reflexivity. Qed.

(** * Properties of the rest of the driver *)

(** ** Line reader: what a read captures *)

Lemma store_sim_buffer_link i c w :
  rx (store_sim_buffer i c w) = rx w /\
  elapsed (store_sim_buffer i c w) = elapsed w /\
  modem (store_sim_buffer i c w) = modem w /\
  tx (store_sim_buffer i c w) = tx w.
Proof.
  unfold store_sim_buffer. destruct (Nat.ltb i REPLY_BUFFER_LENGTH); repeat split.
Qed.

Lemma store_line_buffer line : forall idx w done todo,
  g_sim_buffer w = done ++ todo ->
  List.length done = idx ->
  (List.length line <= List.length todo)%nat ->
  (idx + List.length todo <= REPLY_BUFFER_LENGTH)%nat ->
  g_sim_buffer (store_line idx line w) = done ++ line ++ drop (List.length line) todo /\
  undefined (store_line idx line w) = undefined w /\
  elapsed (store_line idx line w) = elapsed w /\
  modem (store_line idx line w) = modem w /\
  tx (store_line idx line w) = tx w.
Proof.
  induction line as [|c t IH]; intros idx w done todo Hbuf Hlen Hfit Hcap.
  - cbn [store_line List.length drop app]. repeat split. exact Hbuf.
  - destruct todo as [|o todo']; [cbn in Hfit; lia|].
    cbn [List.length] in *. cbn [store_line].
    assert (Hlt : Nat.ltb idx REPLY_BUFFER_LENGTH = true)
      by (apply Nat.ltb_lt; lia).
    destruct (IH (S idx) (store_sim_buffer idx c w) (done ++ [c]) todo')
      as (Hb & Hu & He & Hm & Ht).
    + unfold store_sim_buffer. rewrite Hlt. cbn [g_sim_buffer set_sim_buffer].
      rewrite Hbuf. subst idx.
      replace (List.length done) with (List.length done + 0)%nat by lia.
      rewrite insert_app_r. cbn. rewrite <- app_assoc. reflexivity.
    + rewrite length_app. cbn. lia.
    + lia.
    + lia.
    + rewrite Hb, Hu, He, Hm, Ht. unfold store_sim_buffer. rewrite Hlt.
      cbn [undefined elapsed modem tx set_sim_buffer drop].
      rewrite <- app_assoc. repeat split.
Qed.

Lemma store_line_rx line : forall idx w, rx (store_line idx line w) = rx w.
Proof.
  induction line as [|c t IH]; intros idx w; cbn [store_line]; [reflexivity|].
  rewrite IH. apply store_sim_buffer_link.
Qed.

(** Line ends in front of a line are dropped. *)
Lemma read_line_drain_breaks lines pre tail w :
  Forall line_break pre ->
  read_line_drain lines (pre ++ tail) 0 w = read_line_drain lines tail 0 w.
Proof.
  induction 1 as [|c pre Hc _ IH]; [reflexivity|].
  cbn [app read_line_drain].
  destruct Hc as [-> | ->].
  - rewrite Ascii.eqb_refl. exact IH.
  - change (Ascii.eqb LF CR) with false. rewrite Ascii.eqb_refl.
    cbn [andb Z.eqb]. exact IH.
Qed.

(** The characters of a line are stored one after the other. *)
Lemma read_line_drain_line lines line : forall tail idx w,
  Forall line_char line ->
  (idx + List.length line <= 255)%nat ->
  read_line_drain lines (line ++ tail) (Z.of_nat idx) w
  = read_line_drain lines tail (Z.of_nat (idx + List.length line))
                    (store_line idx line w).
Proof.
  induction line as [|c t IH]; intros tail idx w Hline Hfit.
  - cbn [app List.length store_line]. rewrite Nat.add_0_r. reflexivity.
  - apply Forall_cons_1 in Hline as [(Hcr & Hlf & _) Hline].
    cbn [List.length] in Hfit. cbn [app read_line_drain store_line List.length].
    destruct (Ascii.eqb_spec c CR); [contradiction|].
    destruct (Ascii.eqb_spec c LF); [contradiction|].
    cbn [andb]. rewrite Nat2Z.id.
    replace (uint8 (Z.of_nat idx + 1)) with (Z.of_nat (S idx))
      by (unfold uint8; rewrite Z.mod_small by lia; lia).
    rewrite IH by (assumption || lia).
    replace (S idx + List.length t)%nat with (idx + S (List.length t))%nat by lia.
    reflexivity.
Qed.

Lemma cstr_line line tail :
  Forall line_char line ->
  cstr (line ++ NUL :: tail) = string_of_list_ascii line.
Proof.
  induction 1 as [|c t (_ & _ & Hnul) _ IH]; cbn [app cstr string_of_list_ascii].
  - reflexivity.
  - destruct (Ascii.eqb_spec c NUL); [contradiction|]. rewrite IH. reflexivity.
Qed.

(** A framed line that is already in the receive buffer is captured by the
    first round of the reader. *)
Lemma read_line_framed
    (time_out : Z) (w : World) (pre line rest : list ascii) :
  1 <= time_out < 65536 ->
  List.length (g_sim_buffer w) = REPLY_BUFFER_LENGTH ->
  Forall line_break pre ->
  Forall line_char line ->
  (1 <= List.length line < 255)%nat ->
  rx w = pre ++ line ++ [CR; LF] ++ rest ->
  let w' := snd (read_line time_out SINGLE_LINE w) in
  cstr (g_sim_buffer w') = string_of_list_ascii line /\
  rx w' = rest /\
  elapsed w' = elapsed w /\
  undefined w' = undefined w.
Proof.
  intros Htime Hlen Hpre Hline Hsize Hrx w'. subst w'.
  unfold read_line.
  assert (Hn : exists n, Z.to_nat (uint16 time_out) = S n).
  { unfold uint16. rewrite Z.mod_small by lia.
    exists (Z.to_nat (time_out - 1)). lia. }
  destruct Hn as [n ->].
  cbn [read_line_loop]. change (Z.of_nat REPLY_BUFFER_LENGTH <? 0) with false.
  cbn iota. rewrite Hrx.
  rewrite read_line_drain_breaks by assumption.
  pose proof (read_line_drain_line SINGLE_LINE line ([CR; LF] ++ rest) 0 w
                Hline ltac:(lia)) as Hdrain.
  change (Z.of_nat 0) with 0 in Hdrain.
  change (0 + List.length line)%nat with (List.length line) in Hdrain.
  rewrite Hdrain. clear Hdrain.
  cbn [app read_line_drain].
  rewrite Ascii.eqb_refl.
  change (Ascii.eqb LF CR) with false. rewrite Ascii.eqb_refl.
  destruct (Z.eqb_spec (Z.of_nat (List.length line)) 0) as [Hz|_]; [lia|].
  cbn [andb]. change (SINGLE_LINE =? 0) with true. cbn [orb].
  destruct (store_line_buffer line 0 w [] (g_sim_buffer w))
    as (Hb & Hu & He & Hm & Ht);
    [reflexivity | reflexivity
     | rewrite Hlen; unfold REPLY_BUFFER_LENGTH; lia
     | rewrite Hlen; cbn; lia |].
  rewrite Nat2Z.id. unfold store_sim_buffer.
  assert (Hlt : Nat.ltb (List.length line) REPLY_BUFFER_LENGTH = true)
    by (apply Nat.ltb_lt; unfold REPLY_BUFFER_LENGTH; lia).
  rewrite Hlt.
  cbn [snd g_sim_buffer rx elapsed undefined set_sim_buffer set_rx set_link].
  rewrite Hb, Hu, He. cbn [app]. repeat split.
  destruct (drop (List.length line) (g_sim_buffer w)) as [|o tail] eqn:Hd.
  { apply (f_equal (@List.length ascii)) in Hd. rewrite length_drop, Hlen in Hd.
    cbn in Hd. unfold REPLY_BUFFER_LENGTH in Hd. lia. }
  replace (List.length line) with (List.length line + 0)%nat at 1 by lia.
  rewrite insert_app_r. cbn [insert list_insert]. apply cstr_line, Hline.
Qed.

(** X1: in single-line mode, when the receive buffer holds any number of
    line ends, then a line of 1 to 254 characters (none of them CR, LF or
    NUL) and its CR LF, a read with a timeout of at least one captures
    exactly that line: the session buffer holds the line as a terminated
    string, the bytes after the line end stay in the receive buffer, no time
    passes and no store leaves the buffer. *)
Theorem read_line_captures_line
    (time_out : Z) (w : World) (pre line rest : list ascii) :
  1 <= time_out < 65536 ->
  List.length (g_sim_buffer w) = REPLY_BUFFER_LENGTH ->
  Forall line_break pre ->
  Forall line_char line ->
  (1 <= List.length line < 255)%nat ->
  rx w = pre ++ line ++ [CR; LF] ++ rest ->
  let w' := snd (read_line time_out SINGLE_LINE w) in
  cstr (g_sim_buffer w') = string_of_list_ascii line /\
  rx w' = rest /\
  elapsed w' = elapsed w /\
  undefined w' = undefined w.
Proof. exact (read_line_framed time_out w pre line rest). Qed.

(** A line of two characters behind a stray line end. *)
Lemma read_line_captures_line_witness :
  let w := set_rx (power_on silent_modem)
             [LF; CR; LF; "O"; "K"; CR; LF; "x"]%char in
  let w' := snd (read_line 500 SINGLE_LINE w) in
  cstr (g_sim_buffer w') = string_of_list_ascii ["O"; "K"]%char /\
  rx w' = ["x"%char] /\
  elapsed w' = elapsed w /\
  undefined w' = undefined w.
Proof.
  apply (read_line_captures_line 500
           (set_rx (power_on silent_modem) [LF; CR; LF; "O"; "K"; CR; LF; "x"]%char)
           [LF; CR; LF] ["O"; "K"]%char ["x"%char]).
  - lia.
  - reflexivity.
  - repeat constructor; (now left) || (now right).
  - repeat constructor; discriminate.
  - cbn. lia.
  - reflexivity.
Defined.

(** ** Line reader: how long a read takes *)

Lemma read_line_drain_elapsed lines pending : forall idx w,
  elapsed (snd (read_line_drain lines pending idx w)) = elapsed w.
Proof.
  induction pending as [|c rest IH]; intros idx w; simpl; [reflexivity|].
  destruct (Ascii.eqb c CR); [apply IH|].
  destruct (Ascii.eqb c LF && (idx =? 0))%bool; [apply IH|].
  destruct (Ascii.eqb c LF && (lines =? 0))%bool; [reflexivity|].
  rewrite IH. apply store_sim_buffer_link.
Qed.

Lemma read_line_loop_elapsed lines : forall time_out idx w,
  (elapsed (snd (read_line_loop time_out lines idx w))
   <= elapsed w + Nat.pred time_out)%nat.
Proof.
  induction time_out as [|t IH]; intros idx w; simpl; [lia|].
  destruct (Z.of_nat REPLY_BUFFER_LENGTH <? idx); [simpl; lia|].
  pose proof (read_line_drain_elapsed lines (rx w) idx w) as Hd.
  destruct (read_line_drain lines (rx w) idx w) as [[eol idx'] w'].
  cbn [snd] in Hd.
  destruct eol; [cbn [orb snd]; lia|].
  destruct t as [|t']; [cbn [orb Nat.eqb snd]; lia|].
  cbn [orb Nat.eqb].
  specialize (IH idx' (tick w')). cbn [Nat.pred] in IH.
  change (elapsed (tick w')) with (S (elapsed w')) in IH. lia.
Qed.

(** X2: [get_reply] returns at the latest [time_out - 1] milliseconds after
    it sent the command, whatever the modem does: the reader sits in at
    most [time_out - 1] one-millisecond delays. *)
Theorem get_reply_time_bound (cmd : string) (time_out : Z) (w : World) :
  (elapsed (snd (get_reply cmd time_out w))
   <= Nat.pred (Z.to_nat (uint16 time_out)))%nat.
Proof.
  unfold get_reply, bind, sim_clear_buffer, sim_send_data, modify, read_line.
  cbn beta iota.
  match goal with
  | |- context [read_line_loop ?n ?l 0 ?w0] =>
      pose proof (read_line_loop_elapsed l n 0 w0) as H;
      destruct (read_line_loop n l 0 w0) as [idx w']
  end.
  cbn [snd elapsed set_link] in *.
  destruct (store_sim_buffer_link (Z.to_nat idx) NUL w') as (_ & -> & _). lia.
Qed.

(** The partial capture of a silent link is the empty string. *)
Lemma read_line_terminated_below_capacity_witness :
  g_sim_buffer (snd (read_line 500 SINGLE_LINE (power_on silent_modem)))
    !! Z.to_nat (read_line_end 500 SINGLE_LINE (power_on silent_modem)) = Some NUL.
Proof.
  apply (read_line_terminated_below_capacity 500 SINGLE_LINE (power_on silent_modem)).
  - reflexivity.
  - vm_compute. reflexivity.
Defined.

(** ** Command transceiver: a reply that arrives in time *)

Lemma set_link_idle w : rx w = [] -> set_link w (elapsed w + 0) [] = w.
Proof. destruct w. cbn. intros ->. rewrite Nat.add_0_r. reflexivity. Qed.

(** While nothing arrives the reader only lets time pass. *)
Lemma read_line_loop_idle lines : forall k t w,
  rx w = [] ->
  (forall j, (j < k)%nat -> modem w (tx w) (elapsed w + j)%nat = []) ->
  (k < t)%nat ->
  read_line_loop t lines 0 w
  = read_line_loop (t - k) lines 0 (set_link w (elapsed w + k) []).
Proof.
  induction k as [|k IH]; intros t w Hrx Hidle Hlt.
  - rewrite set_link_idle by exact Hrx. rewrite Nat.sub_0_r. reflexivity.
  - destruct t as [|t]; [lia|].
    cbn [read_line_loop]. change (Z.of_nat REPLY_BUFFER_LENGTH <? 0) with false.
    cbn iota. rewrite Hrx. cbn [read_line_drain].
    destruct t as [|t]; [lia|]. cbn [orb Nat.eqb].
    change (snd (debug_delay 1 (set_rx w []))) with (tick (set_rx w [])).
    unfold tick. cbn [rx elapsed modem tx set_rx set_link app].
    pose proof (Hidle O ltac:(lia)) as H0. rewrite Nat.add_0_r in H0.
    rewrite H0.
    match goal with
    | |- read_line_loop ?t0 _ 0 ?wx = _ =>
        rewrite (IH t0 wx); [| reflexivity | | lia]
    end.
    + cbn [elapsed set_link].
      replace (S (elapsed w) + k)%nat with (elapsed w + S k)%nat by lia.
      reflexivity.
    + intros j Hj. cbn [modem tx elapsed set_link].
      replace (S (elapsed w) + j)%nat with (elapsed w + S j)%nat by lia.
      apply Hidle. lia.
Qed.

(** [get_reply] when the modem is silent for [k] milliseconds and then
    delivers a framed line within one millisecond. *)
Lemma get_reply_captures
    (cmd : string) (time_out : Z) (w : World) (k : nat) (line rest : list ascii) :
  List.length (g_sim_buffer w) = REPLY_BUFFER_LENGTH ->
  (forall j, (j < k)%nat -> modem w (tx w ++ [cmd; CRLF]) j = []) ->
  modem w (tx w ++ [cmd; CRLF]) k = [CR; LF] ++ line ++ [CR; LF] ++ rest ->
  Forall line_char line ->
  (1 <= List.length line < 255)%nat ->
  Z.of_nat k + 2 <= time_out < 65536 ->
  let w' := snd (get_reply cmd time_out w) in
  cstr (g_sim_buffer w') = string_of_list_ascii line /\
  rx w' = rest /\
  elapsed w' = S k /\
  undefined w' = undefined w /\
  tx w' = tx w ++ [cmd; CRLF].
Proof.
  intros Hlen Hidle Harrive Hline Hsize Htime w'. subst w'.
  unfold get_reply, bind, sim_clear_buffer, sim_send_data, modify.
  cbn beta iota.
  set (w0 := set_link (set_tx _ _) 0 _).
  assert (Hw0 : rx w0 = [] /\ elapsed w0 = O /\ tx w0 = tx w ++ [cmd; CRLF] /\
                modem w0 = modem w /\ g_sim_buffer w0 = g_sim_buffer w /\
                undefined w0 = undefined w).
  { subst w0. cbn. rewrite <- app_assoc. repeat split. }
  clearbody w0. destruct Hw0 as (Hrx & Hel & Htx & Hmo & Hbuf & Hun).
  set (n := Z.to_nat (time_out - Z.of_nat k - 2)).
  assert (Ht : Z.to_nat (uint16 time_out) = (S (S n) + k)%nat).
  { unfold uint16. rewrite Z.mod_small by lia. subst n. lia. }
  set (w1 := set_link w0 (elapsed w0 + k) []).
  set (w2 := tick (set_rx w1 [])).
  assert (Hloop : read_line_loop (Z.to_nat (uint16 time_out)) SINGLE_LINE 0 w0
                  = read_line_loop (S n) SINGLE_LINE 0 w2).
  { rewrite Ht.
    rewrite (read_line_loop_idle SINGLE_LINE k (S (S n) + k) w0 Hrx);
      [|intros j Hj; rewrite Hmo, Htx, Hel; apply Hidle, Hj | lia].
    replace (S (S n) + k - k)%nat with (S (S n)) by lia.
    fold w1. cbn [read_line_loop].
    change (Z.of_nat REPLY_BUFFER_LENGTH <? 0) with false. cbn iota.
    change (rx w1) with (@nil ascii). cbn [read_line_drain orb Nat.eqb].
    reflexivity. }
  assert (Hread : snd (read_line time_out SINGLE_LINE w0)
                  = snd (read_line (Z.of_nat (S n)) SINGLE_LINE w2)).
  { unfold read_line. rewrite Hloop.
    replace (Z.to_nat (uint16 (Z.of_nat (S n)))) with (S n)
      by (unfold uint16; rewrite Z.mod_small by lia; lia).
    reflexivity. }
  rewrite Hread.
  assert (Hrx2 : rx w2 = [CR; LF] ++ line ++ [CR; LF] ++ rest).
  { subst w2 w1. unfold tick. cbn [rx elapsed modem tx set_rx set_link app].
    rewrite Hmo, Htx, Hel. exact Harrive. }
  destruct (read_line_framed (Z.of_nat (S n)) w2 [CR; LF] line rest)
    as (Hc & Hr & He & Hu).
  - lia.
  - subst w2 w1. cbn. rewrite Hbuf. exact Hlen.
  - repeat constructor; (now left) || (now right).
  - exact Hline.
  - exact Hsize.
  - exact Hrx2.
  - rewrite Hc, Hr, He, Hu.
    pose proof (quiet_read_line (Z.of_nat (S n)) SINGLE_LINE w2) as Hq.
    rewrite (eff_tx _ _ _ _ Hq), app_nil_r.
    subst w2 w1. cbn [elapsed undefined tx tick set_rx set_link].
    rewrite Hel, Hun, Htx. repeat split.
Qed.

(** X3: when the modem is silent for [k] milliseconds after a command and
    then delivers one framed line (CR LF, 1 to 254 characters, CR LF), and
    the timeout is at least [k + 2], [send_check_reply] reports a mismatch
    exactly when that line differs from the expected reply; the line is in
    the session buffer, the command and CR LF were sent, and the call took
    [k + 1] milliseconds. *)
Theorem send_check_reply_in_time
    (cmd reply : string) (time_out : Z) (w : World) (k : nat)
    (line rest : list ascii) :
  List.length (g_sim_buffer w) = REPLY_BUFFER_LENGTH ->
  (forall j, (j < k)%nat -> modem w (tx w ++ [cmd; CRLF]) j = []) ->
  modem w (tx w ++ [cmd; CRLF]) k = [CR; LF] ++ line ++ [CR; LF] ++ rest ->
  Forall line_char line ->
  (1 <= List.length line < 255)%nat ->
  Z.of_nat k + 2 <= time_out < 65536 ->
  let r := send_check_reply cmd reply time_out w in
  fst r = negb (String.eqb (string_of_list_ascii line) reply) /\
  cstr (g_sim_buffer (snd r)) = string_of_list_ascii line /\
  tx (snd r) = tx w ++ [cmd; CRLF] /\
  elapsed (snd r) = S k.
Proof.
  intros Hlen Hidle Harrive Hline Hsize Htime r. subst r.
  destruct (get_reply_captures cmd time_out w k line rest
              Hlen Hidle Harrive Hline Hsize Htime) as (Hc & _ & He & _ & Ht).
  unfold send_check_reply, bind, gets, ret, strcmp_eq.
  destruct (get_reply cmd time_out w) as [u w']. cbn [fst snd] in *.
  rewrite Hc. repeat split; assumption.
Qed.

(** A modem that answers OK after three milliseconds. *)
Lemma send_check_reply_in_time_witness :
  let w := power_on (fun _ ms => if Nat.eqb ms 3 then reply_line "OK" else []) in
  let r := send_check_reply "AT" "OK" DEFAULT_TIMEOUT w in
  fst r = negb (String.eqb (string_of_list_ascii ["O"; "K"]%char) "OK") /\
  cstr (g_sim_buffer (snd r)) = string_of_list_ascii ["O"; "K"]%char /\
  tx (snd r) = tx w ++ ["AT"; CRLF] /\
  elapsed (snd r) = 4%nat.
Proof.
  apply (send_check_reply_in_time "AT" "OK" DEFAULT_TIMEOUT
           (power_on (fun _ ms => if Nat.eqb ms 3 then reply_line "OK" else []))
           3 ["O"; "K"]%char []).
  - reflexivity.
  - intros j Hj. destruct j as [|[|[|j]]]; [reflexivity .. | lia].
  - reflexivity.
  - repeat constructor; discriminate.
  - cbn. lia.
  - unfold DEFAULT_TIMEOUT. cbn. lia.
Defined.

(** ** Reply parser: what it leaves behind *)

Lemma strstr_suffix needle : forall hay p,
  strstr hay needle = Some p -> exists head, hay = (head ++ p)%string.
Proof.
  induction hay as [|a t IH]; intros p; cbn [strstr].
  - destruct (String.prefix needle EmptyString); [|discriminate].
    intros [= <-]. exists EmptyString. reflexivity.
  - destruct (String.prefix needle (String a t)).
    + intros [= <-]. exists EmptyString. reflexivity.
    + intros H. destruct (IH p H) as [head ->].
      exists (String a head). reflexivity.
Qed.

Lemma advance_suffix : forall n s, exists head, s = (head ++ advance n s)%string.
Proof.
  induction n as [|n IH]; intros s.
  - exists EmptyString. destruct s; reflexivity.
  - destruct s as [|a t]; [exists EmptyString; reflexivity|].
    destruct (IH t) as [head H]. exists (String a head).
    cbn [advance String.append]. rewrite <- H. reflexivity.
Qed.

Lemma strchr_suffix c : forall s q,
  strchr s c = Some q -> exists head, s = (head ++ q)%string.
Proof.
  induction s as [|a t IH]; intros q; cbn [strchr]; [discriminate|].
  destruct (Ascii.eqb a c).
  - intros [= <-]. exists EmptyString. reflexivity.
  - intros H. destruct (IH q H) as [head ->]. exists (String a head). reflexivity.
Qed.

Lemma append_assoc (a b c : string) : ((a ++ b) ++ c = a ++ (b ++ c))%string.
Proof. induction a as [|x a IH]; cbn; [reflexivity | now rewrite IH]. Qed.

Lemma skip_dividers_suffix c : forall k s p,
  skip_dividers k c s = Some p -> exists head, s = (head ++ p)%string.
Proof.
  induction k as [|k IH]; intros s p; cbn [skip_dividers].
  - intros [= <-]. exists EmptyString. reflexivity.
  - destruct (strchr s c) as [q|] eqn:E; [|discriminate].
    intros H. destruct (IH _ _ H) as [h2 H2].
    destruct (strchr_suffix c s q E) as [h1 ->].
    destruct (advance_suffix 1 q) as [h3 H3].
    exists (h1 ++ h3 ++ h2)%string.
    rewrite H3 at 1. rewrite H2 at 1. now rewrite !append_assoc.
Qed.

Lemma skip_delims_suffix c : forall s,
  exists head, s = (head ++ skip_delims s c)%string.
Proof.
  induction s as [|a t [head IH]]; cbn [skip_delims].
  - exists EmptyString. reflexivity.
  - destruct (Ascii.eqb a c).
    + exists (String a head). cbn. now rewrite <- IH.
    + exists EmptyString. reflexivity.
Qed.

Lemma split_token_parts c : forall s tok rest,
  split_token s c = (tok, Some rest) -> s = (tok ++ String c rest)%string.
Proof.
  induction s as [|a t IH]; intros tok rest; cbn [split_token]; [discriminate|].
  destruct (Ascii.eqb_spec a c) as [->|_].
  - intros [= <- <-]. reflexivity.
  - destruct (split_token t c) as [tok' rest'] eqn:E.
    intros [= <- ->]. cbn. now rewrite <- (IH tok' rest eq_refl).
Qed.

Lemma append_length (a b : string) :
  String.length (a ++ b) = (String.length a + String.length b)%nat.
Proof. induction a as [|x a IH]; cbn; [reflexivity | now rewrite IH]. Qed.

(** Writing NUL into a string cuts it there. *)
Lemma cstr_cut : forall (head : string) (b : list ascii) (c : ascii) (tail : string),
  cstr b = (head ++ String c tail)%string ->
  cstr (<[String.length head := NUL]> b) = head.
Proof.
  induction head as [|a head IH]; intros b c tail H.
  - destruct b as [|x b]; [discriminate|]. reflexivity.
  - destruct b as [|x b]; [discriminate|]. cbn [cstr String.append] in H.
    destruct (Ascii.eqb x NUL) eqn:E; [discriminate|].
    injection H as -> H. cbn [String.length insert list_insert cstr].
    rewrite E. f_equal. exact (IH b c tail H).
Qed.

(** X4: [parse_reply] is destructive.  When the field it parses is followed
    by a comma, that comma is overwritten with NUL: afterwards the session
    buffer holds the reply only up to the end of the parsed field, and what
    followed the field can no longer be read; the value stored is the one
    [atoi] reads from that field. *)
Theorem parse_reply_cuts_buffer
    (w : World) (reply : string) (v : Z) (divider : ascii) (index : Z)
    (p0 p tok rest : string) :
  strstr (cstr (g_sim_buffer w)) reply = Some p0 ->
  skip_dividers (Z.to_nat (uint8 index)) divider (advance (strlen reply) p0) = Some p ->
  (1 < strlen p)%nat ->
  strtok p COMMA = Some (tok, Some rest) ->
  exists head,
    cstr (g_sim_buffer w) = (head ++ tok ++ String COMMA rest)%string /\
    cstr (g_sim_buffer (snd (parse_reply reply v divider index w)))
      = (head ++ tok)%string /\
    fst (parse_reply reply v divider index w) = (NO_ERROR, uint16 (atoi tok)).
Proof.
  intros Hstr Hskip Hlong Htok.
  destruct (strstr_suffix _ _ _ Hstr) as [h1 H1].
  destruct (advance_suffix (strlen reply) p0) as [h2 H2].
  destruct (skip_dividers_suffix _ _ _ _ Hskip) as [h3 H3].
  destruct (skip_delims_suffix COMMA p) as [h4 H4].
  unfold strtok in Htok.
  destruct (skip_delims p COMMA) as [|a q] eqn:Hq; [discriminate|].
  assert (Hsplit : split_token (String a q) COMMA = (tok, Some rest))
    by congruence.
  clear Htok.
  pose proof (split_token_parts _ _ _ _ Hsplit) as Hparts.
  exists (h1 ++ h2 ++ h3 ++ h4)%string.
  assert (Hs : cstr (g_sim_buffer w)
               = ((h1 ++ h2 ++ h3 ++ h4) ++ tok ++ String COMMA rest)%string).
  { rewrite H1. rewrite H2 at 1. rewrite H3 at 1. rewrite H4 at 1.
    rewrite Hparts. now rewrite !append_assoc. }
  split; [exact Hs|].
  unfold parse_reply. rewrite Hstr, Hskip.
  apply Nat.ltb_lt in Hlong. rewrite Hlong.
  unfold strtok. rewrite Hq, Hsplit. cbn [fst snd g_sim_buffer set_sim_buffer].
  split; [|reflexivity].
  rewrite <- append_assoc in Hs.
  replace (strlen (cstr (g_sim_buffer w)) - strlen rest - 1)%nat
    with (String.length ((h1 ++ h2 ++ h3 ++ h4) ++ tok)).
  - apply (cstr_cut _ _ COMMA rest). exact Hs.
  - unfold strlen. rewrite Hs, !append_length. cbn [String.length]. lia.
Qed.

(** The status line of an HTTP action: the status code is parsed and the
    length field behind it is cut off. *)
Lemma parse_reply_cuts_buffer_witness :
  exists head,
    cstr (g_sim_buffer (with_reply "+HTTPACTION: 1,200,27"))
      = (head ++ "200" ++ String COMMA "27")%string /\
    cstr (g_sim_buffer (snd (parse_reply "+HTTPACTION: " 0 COMMA 1
                                         (with_reply "+HTTPACTION: 1,200,27"))))
      = (head ++ "200")%string /\
    fst (parse_reply "+HTTPACTION: " 0 COMMA 1 (with_reply "+HTTPACTION: 1,200,27"))
      = (NO_ERROR, uint16 (atoi "200")).
Proof.
  apply (parse_reply_cuts_buffer (with_reply "+HTTPACTION: 1,200,27")
           "+HTTPACTION: " 0 COMMA 1 "+HTTPACTION: 1,200,27" "200,27" "200" "27").
  - reflexivity.
  - reflexivity.
  - cbn. lia.
  - reflexivity.
Defined.

(** ** SIM card bring-up *)


Lemma debug_delay_sim_buffer ms w :
  g_sim_buffer (snd (debug_delay ms w)) = g_sim_buffer w.
Proof.
  unfold debug_delay, modify. cbn [snd].
  induction (Z.to_nat ms) as [|n IH]; [reflexivity|].
  change (Nat.iter (S n) tick w) with (tick (Nat.iter n tick w)). exact IH.
Qed.

Lemma sim_card_pin_ready w :
  fst (sim_card_pin w) = NO_ERROR ->
  exists p, strstr (cstr (g_sim_buffer (snd (sim_card_pin w)))) "+CPIN: " = Some p /\
            advance 7 p = "READY".
Proof.
  unfold sim_card_pin, bind, gets, ret.
  destruct (get_reply "AT+CPIN?" 5000 w) as [u w1]. cbn [fst snd].
  destruct (strstr (cstr (g_sim_buffer w1)) "+CPIN: ") as [p|] eqn:E;
    cbn [fst snd]; [|discriminate].
  destruct (strcmp_eq (advance (strlen "+CPIN: ") p) "READY") eqn:Ecmp;
    cbn [negb fst snd]; [|discriminate].
  intros _. exists p. split; [exact E|]. apply String.eqb_eq. exact Ecmp.
Qed.

(** X5: [SIM868_sim_card_init] reports success only when the last reply in
    the session buffer carries [+CPIN: ] followed by exactly [READY]. *)
Theorem sim_card_init_ready (w : World) :
  fst (SIM868_sim_card_init w) = NO_ERROR ->
  exists p,
    strstr (cstr (g_sim_buffer (snd (SIM868_sim_card_init w)))) "+CPIN: " = Some p /\
    advance 7 p = "READY".
Proof.
  unfold SIM868_sim_card_init, bind, ret.
  destruct (sim_card_enable w) as [e1 w1].
  destruct (e1 =? 0) eqn:E1; cbn [negb].
  2:{ cbn [fst]. intros ->. discriminate. }
  destruct (sim_card_status w1) as [e2 w2].
  destruct (e2 =? 0) eqn:E2; cbn [negb].
  2:{ cbn [fst]. intros ->. discriminate. }
  pose proof (sim_card_pin_ready w2) as Hpin.
  destruct (sim_card_pin w2) as [e3 w3]. cbn [fst snd] in Hpin.
  destruct (e3 =? 0) eqn:E3; cbn [negb].
  2:{ cbn [fst]. intros ->. discriminate. }
  destruct (debug_delay DEBUG_SHORT_DELAY w3) as [u w4] eqn:Ed.
  cbn [fst snd]. intros ->.
  pose proof (debug_delay_sim_buffer DEBUG_SHORT_DELAY w3) as Hb.
  rewrite Ed in Hb. cbn [snd] in Hb. rewrite Hb. apply Hpin. reflexivity.
Qed.

(** A card that is detected, inserted and not locked. *)
Lemma sim_card_init_ready_witness :
  exists p,
    strstr (cstr (g_sim_buffer (snd (SIM868_sim_card_init (power_on sim_ready_modem)))))
           "+CPIN: " = Some p /\
    advance 7 p = "READY".
Proof.
  apply (sim_card_init_ready (power_on sim_ready_modem)).
  vm_compute. reflexivity.
Defined.



(** ** Autobaud *)

Ltac all_of :=
  cbn [app];
  repeat first [apply List.Forall_nil | apply List.Forall_cons; [auto|]].

Lemma autobaud_loop_effect : forall fuel n w,
  (n <= 4)%nat ->
  exists sent,
    effect w (snd (autobaud_loop fuel (500 * Z.of_nat n) w)) sent [] /\
    Forall (fun c => c = "AT" \/ c = CRLF) sent /\
    (List.length sent <= 4 * n)%nat.
Proof.
  induction fuel as [|fuel IH]; intros n w Hn; cbn [autobaud_loop].
  - exists []. split; [apply effect_refl|]. split; [constructor | cbn; lia].
  - destruct (Z.ltb_spec 0 (500 * Z.of_nat n)) as [Hpos|Hzero].
    2:{ exists []. split; [apply effect_refl|]. split; [constructor | cbn; lia]. }
    assert (Hn1 : (1 <= n)%nat) by lia.
    unfold bind, sim_flush, modify, ret.
    pose proof (quiet_set_link w (elapsed w) []) as Hf1. fold (set_rx w []) in Hf1.
    step_check.
    destruct bad; cbn [negb].
    2:{ eexists. split; [chained|].
        split; [all_of | cbn; lia]. }
    pose proof (quiet_set_link w0 (elapsed w0) []) as Hf2.
    fold (set_rx w0 []) in Hf2.
    step_check.
    destruct bad; cbn [negb].
    2:{ eexists. split; [chained|].
        split; [all_of | cbn; lia]. }
    pose proof (quiet_debug_delay 500 w1) as Hd.
    destruct (debug_delay 500 w1) as [u w2]. cbn [snd] in Hd.
    replace (uint16 (500 * Z.of_nat n - 500)) with (500 * Z.of_nat (n - 1))
      by (unfold uint16; rewrite Z.mod_small by lia; lia).
    destruct (IH (n - 1)%nat w2 ltac:(lia)) as (sent & He & Hall & Hlen).
    exists (["AT"; CRLF] ++ ["AT"; CRLF] ++ sent).
    split; [chained|].
    split; [all_of; assumption | cbn [List.length app]; lia].
Qed.

(** X7: [SIM868_init] spends at most four rounds, eight [AT] commands, on
    the handshake and then always sends [ATE0] twice, whether the
    handshake got an answer or not.  Its result depends on the second
    [ATE0] alone: [NO_ERROR] when the reply is exactly [OK], which is then
    in the session buffer, and [ERROR_AUTOBAUD_MODE] otherwise. *)
Theorem sim868_init_steps (w : World) :
  let r := SIM868_init w in
  exists handshake,
    sent_by SIM868_init w = handshake ++ command_lines ["ATE0"; "ATE0"] /\
    Forall (fun c => c = "AT" \/ c = CRLF) handshake /\
    (List.length handshake <= 16)%nat /\
    (fst r = NO_ERROR \/ fst r = ERROR_AUTOBAUD_MODE) /\
    (fst r = NO_ERROR <-> cstr (g_sim_buffer (snd r)) = "OK").
Proof.
  intros r. subst r.
  destruct (autobaud_loop_effect 8 4 w ltac:(lia)) as (handshake & Hh & Hall & Hlen).
  change (500 * Z.of_nat 4) with 2000 in Hh.
  exists handshake.
  assert (Hgoal :
    effect w (snd (SIM868_init w)) (handshake ++ command_lines ["ATE0"; "ATE0"]) [] /\
    (fst (SIM868_init w) = NO_ERROR \/ fst (SIM868_init w) = ERROR_AUTOBAUD_MODE) /\
    (fst (SIM868_init w) = NO_ERROR <-> cstr (g_sim_buffer (snd (SIM868_init w))) = "OK")).
  { unfold SIM868_init, bind, ret.
    destruct (autobaud_loop 8 2000 w) as [u w1]. cbn [snd] in Hh.
    step_check.
    pose proof (quiet_debug_delay 100 w0) as Hd1.
    destruct (debug_delay 100 w0) as [u1 w2]. cbn [snd] in Hd1.
    unfold send_check_reply, bind, gets, ret, strcmp_eq.
    pose proof (effect_get_reply "ATE0" DEFAULT_TIMEOUT w2) as Hg.
    destruct (get_reply "ATE0" DEFAULT_TIMEOUT w2) as [u2 w3]. cbn [snd] in Hg.
    destruct (String.eqb_spec (cstr (g_sim_buffer w3)) "OK") as [Heq|Hne];
      cbn [negb fst snd].
    - pose proof (quiet_debug_delay DEBUG_SHORT_DELAY w3) as Hd2.
      pose proof (debug_delay_sim_buffer DEBUG_SHORT_DELAY w3) as Hb.
      destruct (debug_delay DEBUG_SHORT_DELAY w3) as [u3 w4]. cbn [fst snd] in *.
      split; [chained|]. split; [left; reflexivity|].
      rewrite Hb. split; [intros _; exact Heq | reflexivity].
    - split; [chained|]. split; [right; reflexivity|].
      split; [discriminate | contradiction]. }
  destruct Hgoal as (He & Hres & Hiff).
  rewrite (sent_by_effect _ _ _ _ He).
  split; [reflexivity|]. split; [exact Hall|]. split; [lia|]. split; assumption.
Qed.

(** ** Network registration and bearer *)





(** An unknown provider: a provider number outside the table of [SIM868_gprs_set_apn] changes
    nothing: the bearer configuration set before stays in force. *)
Theorem gprs_set_apn_unknown (serivce : Z) (w : World) :
  5 <= uint8 serivce ->
  SIM868_gprs_set_apn serivce w = (tt, w).
Proof.
  intros H. unfold SIM868_gprs_set_apn, modify, M2M, ATT, IUSACELL, TELCEL, MOVISTAR.
  repeat match goal with
         | |- context [uint8 serivce =? ?k] =>
             destruct (Z.eqb_spec (uint8 serivce) k); [lia|]
         end.
  reflexivity.
Qed.

Lemma gprs_set_apn_unknown_witness :
  SIM868_gprs_set_apn 7 (power_on silent_modem) = (tt, power_on silent_modem).
Proof. apply (gprs_set_apn_unknown 7 (power_on silent_modem)). vm_compute. discriminate. Defined.


Lemma gprs_enable_attach_false_effect w :
  effect w (snd (gprs_enable_attach false w)) ["AT+CGATT?"; CRLF] [].
Proof.
  unfold gprs_enable_attach, bind, ret. step_parse.
  destruct (fst res =? 0); cbn [andb]; exact Hstep.
Qed.

(** X9: closing the bearer is not confirmed.  For [enable(false)] on a
    connected bearer of a detached module, once the close command is
    answered [OK] the result is [NO_ERROR] whatever the bearer query
    that follows reports; and the call sends the attach query, the bearer
    query, the close command and the second bearer query. *)
Theorem gprs_enable_close_unconfirmed
    (w w1 w2 w3 : World) (bearer_status : Z) :
  gprs_enable_attach false w = ((None, 0), w1) ->
  gprs_query w1 = (bearer_status, w2) ->
  uint8 bearer_status = CONNECTED ->
  send_check_reply cmd_close_bearer "OK" 30000 w2 = (false, w3) ->
  fst (SIM868_gprs_enable false w) = NO_ERROR /\
  sent_by (SIM868_gprs_enable false) w
  = command_lines ["AT+CGATT?"; cmd_query_bearer; cmd_close_bearer; cmd_query_bearer].
Proof.
  intros Hattach Hquery Hstate Hclose.
  pose proof (gprs_enable_attach_false_effect w) as Hb.
  rewrite Hattach in Hb. cbn [snd] in Hb.
  pose proof (gprs_query_effect w1) as Hq. rewrite Hquery in Hq. cbn [snd] in Hq.
  pose proof (effect_send_check_reply cmd_close_bearer "OK" 30000 w2) as Hc.
  rewrite Hclose in Hc. cbn [snd] in Hc.
  pose proof (gprs_query_effect w3) as Hq2.
  assert (Hgoal : fst (SIM868_gprs_enable false w) = NO_ERROR /\
                  effect w (snd (SIM868_gprs_enable false w))
                    (command_lines ["AT+CGATT?"; cmd_query_bearer;
                                    cmd_close_bearer; cmd_query_bearer]) []).
  { unfold SIM868_gprs_enable, bind. rewrite Hattach. cbn [fst snd].
    rewrite Hquery. rewrite Hstate. cbn [andb negb]. 
    change (CONNECTED =? CLOSED) with false. change (CONNECTED =? CONNECTED) with true.
    cbn iota. unfold gprs_enable_close, bind, ret. rewrite Hclose.
    destruct (gprs_query w3) as [q3 w4]. cbn [snd] in Hq2.
    change (NO_ERROR =? NO_ERROR) with true. cbn iota.
    unfold gprs_enable_detach, bind, ret. cbn [negb andb Z.eqb].
    pose proof (quiet_debug_delay DEBUG_SHORT_DELAY w4) as Hd.
    destruct (debug_delay DEBUG_SHORT_DELAY w4) as [u w5]. cbn [fst snd] in *.
    split; [reflexivity | chained]. }
  destruct Hgoal as [Hres He].
  split; [exact Hres | exact (sent_by_effect _ _ _ _ He)].
Qed.

(** A bearer that stays connected: the close is answered OK, the bearer
    query still reports connected, and the call succeeds. *)
Lemma gprs_enable_close_unconfirmed_witness :
  fst (SIM868_gprs_enable false (power_on stuck_bearer_modem)) = NO_ERROR /\
  sent_by (SIM868_gprs_enable false) (power_on stuck_bearer_modem)
  = command_lines ["AT+CGATT?"; cmd_query_bearer; cmd_close_bearer; cmd_query_bearer].
Proof.
  eapply (gprs_enable_close_unconfirmed (power_on stuck_bearer_modem)).
  - vm_compute; reflexivity.
  - vm_compute; reflexivity.
  - reflexivity.
  - vm_compute; reflexivity.
Defined.

(** After the close the bearer of that modem is indeed still connected. *)
Lemma stuck_bearer_still_connected :
  fst (gprs_query (snd (SIM868_gprs_enable false (power_on stuck_bearer_modem))))
    = CONNECTED.
Proof. vm_compute. reflexivity. Qed.




(** On that modem the call succeeds and sends the whole sequence. *)
Lemma gprs_enable_opens_sample :
  fst (SIM868_gprs_enable true (power_on opening_modem)) = NO_ERROR /\
  sent_by (SIM868_gprs_enable true) (power_on opening_modem)
  = command_lines (["AT+CGATT?"; cmd_query_bearer]
                   ++ bearer_open_sequence sample_bearer ++ [cmd_query_bearer]).
Proof. vm_compute. split; reflexivity. Qed.

(** ** HTTP service set-up and request *)




Lemma http_action_effect time_out method w :
  exists sent, effect w (snd (http_action time_out method w)) sent [Fn_http_action].
Proof.
  unfold http_action, bind, modify.
  pose proof (effect_log_call w Fn_http_action) as H0.
  set (w0 := log_call w Fn_http_action) in *. clearbody w0.
  destruct (negb (uint8 method =? 0)).
  - unfold http_action_post, bind, gets, ret.
    step_check. destruct bad; [eexists; chained|].
    step_check. destruct bad; [eexists; chained|].
    change (NO_ERROR =? NO_ERROR) with true. cbv beta iota.
    destruct (http_action_request_effect time_out (uint8 method) w2) as [s Hs].
    eexists; chained.
  - destruct (http_action_request_effect time_out (uint8 method) w0) as [s Hs].
    eexists; chained.
Qed.

Lemma http_read_all_effect w :
  effect w (snd (http_read_all w)) ["AT+HTTPREAD"; CRLF] [Fn_http_read_all].
Proof.
  unfold http_read_all, bind, modify, gets, ret.
  pose proof (effect_log_call w Fn_http_read_all) as H0.
  set (w0 := log_call w Fn_http_read_all) in *. clearbody w0.
  pose proof (effect_get_reply "AT+HTTPREAD" DEFAULT_TIMEOUT w0) as Hg.
  destruct (get_reply "AT+HTTPREAD" DEFAULT_TIMEOUT w0) as [u w1]. cbn [snd] in Hg.
  destruct (strstr (cstr (g_sim_buffer w1)) "+HTTPREAD: "); [|chained].
  pose proof (quiet_read_line 5000 SINGLE_LINE w1) as Hr.
  destruct (read_line 5000 SINGLE_LINE w1) as [u' w2]. cbn [snd] in *.
  assert (Hb : quiet w2 (set_http_buffer w2 (cstr (g_sim_buffer w2))))
    by (split; try reflexivity; symmetry; apply app_nil_r).
  chained.
Qed.

(** The steps of [http_start]: the functions entered after it and what a
    success means. *)
Lemma http_start_effect method w :
  exists sent called,
    effect w (snd (http_start method w)) sent
           (Fn_http_start :: Fn_http_action :: called) /\
    (called = [] \/ called = [Fn_http_read_all]) /\
    (fst (http_start method w) = NO_ERROR ->
     called = [Fn_http_read_all] /\
     exists before, sent = before ++ ["AT+HTTPREAD"; CRLF; "AT+HTTPTERM"; CRLF]).
Proof.
  unfold http_start, bind, modify, ret.
  pose proof (effect_log_call w Fn_http_start) as H0.
  set (w0 := log_call w Fn_http_start) in *. clearbody w0.
  destruct (http_action_effect 30000 method w0) as [sa Ha].
  destruct (http_action 30000 method w0) as [e w1]. cbn [fst snd] in *.
  destruct (Z.eqb_spec e 0) as [->|He]; cbn [negb]; cbv beta iota.
  2: { exists sa, []. split; [chained|]. split; [left; reflexivity|].
       cbn [fst]. intros; contradiction. }
  pose proof (http_read_all_effect w1) as Hr.
  destruct (http_read_all w1) as [e w2]. cbn [fst snd] in *.
  destruct (Z.eqb_spec e 0) as [->|He]; cbn [negb]; cbv beta iota.
  2: { eexists _, [Fn_http_read_all]. split; [chained|].
       split; [right; reflexivity|]. cbn [fst]. intros; contradiction. }
  step_check. destruct bad.
  { eexists _, [Fn_http_read_all]. split; [chained|].
    split; [right; reflexivity|]. cbn [fst]. discriminate. }
  pose proof (quiet_debug_delay DEBUG_SHORT_DELAY w3) as Hd.
  destruct (debug_delay DEBUG_SHORT_DELAY w3) as [u w4]. cbn [fst snd] in *.
  exists (sa ++ ["AT+HTTPREAD"; CRLF; "AT+HTTPTERM"; CRLF]), [Fn_http_read_all].
  split.
  - chained.
  - split; [right; reflexivity|]. intros _. split; [reflexivity|].
    exists sa. reflexivity.
Qed.

(** X13: [http_start] enters [http_action] always and [http_read_all] at
    most once, in this order.  It returns [NO_ERROR] only after the
    response was read and the session was ended: the last two commands
    sent are then [AT+HTTPREAD] and [AT+HTTPTERM]. *)
Theorem http_start_steps (method : Z) (w : World) :
  let r := http_start method w in
  exists called,
    calls (snd r) = calls w ++ Fn_http_start :: Fn_http_action :: called /\
    (called = [] \/ called = [Fn_http_read_all]) /\
    (fst r = NO_ERROR ->
     called = [Fn_http_read_all] /\
     exists before,
       sent_by (http_start method) w
       = before ++ command_lines ["AT+HTTPREAD"; "AT+HTTPTERM"]).
Proof.
  cbv zeta.
  destruct (http_start_effect method w) as (sent & called & He & Hc & Hok).
  exists called. split; [exact (eff_calls _ _ _ _ He)|]. split; [exact Hc|].
  intros H. destruct (Hok H) as [Hcalled [before Hsent]].
  split; [exact Hcalled|]. exists before.
  rewrite (sent_by_effect _ _ _ _ He). exact Hsent.
Qed.

Lemma http_start_fails_positive method k w e w' :
  http_start_fails method k w e w' -> (1 <= k)%nat.
Proof. destruct 1; lia. Qed.

(** The second loop when every attempt fails: an attempt costs two of the
    count, so [k] attempts use up a count of [2 k] or [2 k - 1]. *)
Lemma http_start_retry_exhausted method k w e w' :
  http_start_fails method k w e w' ->
  forall attempts error_status,
    (attempts = 2 * k \/ S attempts = 2 * k)%nat ->
    http_start_retry attempts method error_status w
    = ((if Nat.odd attempts then Some ERROR_HTTP_REQUEST else None, e), w').
Proof.
  induction 1 as [w e w1 Hrun Hne | k w e w1 e' w' Hrun Hne Hrest IH];
    intros attempts e0 Ha.
  - destruct Ha as [-> | Ha].
    + cbn [Nat.mul Nat.add http_start_retry]. unfold bind. rewrite Hrun.
      destruct (Z.eqb_spec e NO_ERROR) as [->|_]; [contradiction|]. reflexivity.
    + assert (attempts = 1%nat) as -> by lia.
      cbn [http_start_retry]. unfold bind. rewrite Hrun.
      destruct (Z.eqb_spec e NO_ERROR) as [->|_]; [contradiction|]. reflexivity.
  - pose proof (http_start_fails_positive _ _ _ _ _ Hrest) as Hk.
    destruct attempts as [|[|attempts]]; try lia.
    cbn [http_start_retry]. unfold bind. rewrite Hrun.
    destruct (Z.eqb_spec e NO_ERROR) as [->|_]; [contradiction|].
    rewrite (IH attempts e ltac:(lia)).
    change (Nat.odd (S (S attempts))) with (Nat.odd attempts). reflexivity.
Qed.

(** X14: the second loop of [SIM868_http_send_request] counts every failed
    attempt twice.  When [http_init] succeeds at once and [http_start]
    fails every time, a request with [max_attempts] from 1 to 255 calls
    [http_start] only half as often, rounded up; with an odd
    [max_attempts] the result is [ERROR_HTTP_REQUEST], with an even one
    the loop ends by its own test and the result is the error of the last
    [http_start]. *)
Theorem http_send_request_start_attempts
    (error_status0 method : Z) (max_attempts k : nat) (w w1 w' : World) (e : Z) :
  (1 <= max_attempts <= 255)%nat ->
  (max_attempts = 2 * k \/ S max_attempts = 2 * k)%nat ->
  http_init w = (NO_ERROR, w1) ->
  http_start_fails method k w1 e w' ->
  SIM868_http_send_request error_status0 method (Z.of_nat max_attempts) w
  = ((if Nat.odd max_attempts then ERROR_HTTP_REQUEST else e), w').
Proof.
  intros Hrange Hk Hinit Hfail.
  assert (Hn : Z.to_nat (uint8 (Z.of_nat max_attempts)) = max_attempts).
  { unfold uint8. rewrite Z.mod_small by lia. apply Nat2Z.id. }
  unfold SIM868_http_send_request, bind. rewrite Hn.
  destruct max_attempts as [|n]; [lia|].
  cbn [http_init_retry]. unfold bind. rewrite Hinit.
  change (NO_ERROR =? NO_ERROR) with true. cbv beta iota. unfold ret at 1.
  cbn [fst snd].
  rewrite (http_start_retry_exhausted _ _ _ _ _ Hfail (S n) NO_ERROR Hk).
  destruct (Nat.odd (S n)); reflexivity.
Qed.

(** Four attempts allowed, two made: the service starts, every GET is
    answered with status 404. *)
Lemma http_send_request_start_attempts_witness :
  exists w',
    SIM868_http_send_request 0 GET 4 (power_on not_found_modem)
      = (ERROR_HTTP_STATUS_CODE, w') /\
    http_starts (calls w') = 2%nat.
Proof.
  eexists. split.
  - eapply (http_send_request_start_attempts 0 GET 4 2 (power_on not_found_modem)).
    + lia.
    + left; reflexivity.
    + vm_compute; reflexivity.
    + eapply start_fails_S; [vm_compute; reflexivity | discriminate |].
      eapply start_fails_1; [vm_compute; reflexivity | discriminate].
  - vm_compute. reflexivity.
Defined.

Lemma http_init_retry_effect : forall attempts error_status w,
  exists sent i,
    effect w (snd (http_init_retry attempts error_status w)) sent
           (repeat Fn_http_init i) /\
    (i <= attempts)%nat.
Proof.
  induction attempts as [|a IH]; intros e0 w.
  - exists [], 0%nat. split; [apply effect_refl | lia].
  - cbn [http_init_retry]. unfold bind, ret.
    destruct (http_init_effect w) as [s1 H1].
    destruct (http_init w) as [e w1]. cbn [snd] in H1.
    destruct (e =? NO_ERROR).
    + exists s1, 1%nat. split; [exact H1 | lia].
    + destruct (Nat.eqb a 0).
      * exists s1, 1%nat. split; [exact H1 | lia].
      * destruct (IH e w1) as (s2 & i & H2 & Hi).
        exists (s1 ++ s2), (S i). split; [|lia].
        exact (effect_trans _ _ _ _ _ _ _ H1 H2).
Qed.

Lemma http_starts_app a b : http_starts (a ++ b) = (http_starts a + http_starts b)%nat.
Proof. unfold http_starts. rewrite List.filter_app. apply List.length_app. Qed.

Lemma http_start_calls method w :
  exists sent called,
    effect w (snd (http_start method w)) sent called /\
    Forall (fun f => f <> Fn_http_init) called /\
    http_starts called = 1%nat.
Proof.
  destruct (http_start_effect method w) as (sent & called & He & Hc & _).
  exists sent, (Fn_http_start :: Fn_http_action :: called).
  split; [exact He|].
  destruct Hc as [-> | ->]; (split; [|reflexivity]);
    repeat apply List.Forall_cons; try apply List.Forall_nil; discriminate.
Qed.

Lemma http_start_retry_effect method : forall attempts,
  (forall error_status w,
    exists sent called,
      effect w (snd (http_start_retry attempts method error_status w)) sent called /\
      Forall (fun f => f <> Fn_http_init) called /\
      (2 * http_starts called <= attempts + 1)%nat) /\
  (forall error_status w,
    exists sent called,
      effect w (snd (http_start_retry (S attempts) method error_status w)) sent called /\
      Forall (fun f => f <> Fn_http_init) called /\
      (2 * http_starts called <= S attempts + 1)%nat).
Proof.
  assert (Hone : forall a,
    (forall error_status w,
      exists sent called,
        effect w (snd (http_start_retry a method error_status w)) sent called /\
        Forall (fun f => f <> Fn_http_init) called /\
        (2 * http_starts called <= a + 1)%nat) ->
    forall error_status w,
      exists sent called,
        effect w (snd (http_start_retry (S (S a)) method error_status w)) sent called /\
        Forall (fun f => f <> Fn_http_init) called /\
        (2 * http_starts called <= S (S a) + 1)%nat).
  { intros a IH e0 w. cbn [http_start_retry]. unfold bind, ret.
    destruct (http_start_calls method w) as (s1 & c1 & H1 & Hc1 & Hn1).
    destruct (http_start method w) as [e w1]. cbn [snd] in H1.
    destruct (e =? NO_ERROR).
    - exists s1, c1. split; [exact H1|]. split; [exact Hc1 | lia].
    - destruct (IH e w1) as (s2 & c2 & H2 & Hc2 & Hn2).
      exists (s1 ++ s2), (c1 ++ c2).
      split; [exact (effect_trans _ _ _ _ _ _ _ H1 H2)|].
      split; [apply Forall_app; split; assumption|].
      rewrite http_starts_app. lia. }
  induction attempts as [|a [IH0 IH1]].
  - split.
    + intros e0 w. exists [], []. split; [apply effect_refl|].
      split; [apply List.Forall_nil | cbn; lia].
    + intros e0 w. cbn [http_start_retry]. unfold bind, ret.
      destruct (http_start_calls method w) as (s1 & c1 & H1 & Hc1 & Hn1).
      destruct (http_start method w) as [e w1]. cbn [snd] in H1.
      destruct (e =? NO_ERROR); exists s1, c1;
        (split; [exact H1|]; split; [exact Hc1 | lia]).
  - split; [exact IH1 | exact (Hone a IH0)].
Qed.

(** X15: the two loops of [SIM868_http_send_request] never mix.  For every
    request, the functions entered are first [http_init], at most
    [max_attempts] times, and then the calls of the request phase, among
    which [http_init] does not occur again: a request that fails after the
    service was set up is retried without a new set-up.  [http_start] is
    entered at most half of [max_attempts] times, rounded up. *)
Theorem http_send_request_calls (error_status0 method max_attempts : Z) (w : World) :
  let r := SIM868_http_send_request error_status0 method max_attempts w in
  exists i called,
    calls (snd r) = calls w ++ repeat Fn_http_init i ++ called /\
    (Z.of_nat i <= uint8 max_attempts) /\
    Forall (fun f => f <> Fn_http_init) called /\
    (2 * Z.of_nat (http_starts called) <= uint8 max_attempts + 1).
Proof.
  cbv zeta. unfold SIM868_http_send_request, bind, ret.
  assert (Hrange : 0 <= uint8 max_attempts) by (unfold uint8; apply Z.mod_pos_bound; lia).
  remember (Z.to_nat (uint8 max_attempts)) as n eqn:Hn.
  assert (Hz : uint8 max_attempts = Z.of_nat n) by lia.
  rewrite Hz. clear Hn Hz Hrange.
  destruct (http_init_retry_effect n error_status0 w) as (s1 & i & H1 & Hi).
  destruct (http_init_retry n error_status0 w) as [[early e] w1]. cbn [fst snd] in *.
  destruct early as [e'|].
  - exists i, []. split; [|split; [lia | split; [apply List.Forall_nil | cbn; lia]]].
    cbn [snd]. rewrite (eff_calls _ _ _ _ H1), app_nil_r. reflexivity.
  - destruct (http_start_retry_effect method n) as [Hs _].
    destruct (Hs e w1) as (s2 & c2 & H2 & Hc2 & Hn2).
    destruct (http_start_retry n method e w1) as [[early' e2] w2]. cbn [fst snd] in *.
    exists i, c2.
    split; [|split; [lia | split; [exact Hc2 | lia]]].
    assert (Hsnd : calls w2 = calls w ++ repeat Fn_http_init i ++ c2).
    { rewrite (eff_calls _ _ _ _ H2), (eff_calls _ _ _ _ H1), <- app_assoc.
      reflexivity. }
    destruct early'; exact Hsnd.
Qed.

(** ** GNSS receiver *)

Lemma store_gnss_buffer_fixed i c g :
  g_gnss_is_data_fixed (store_gnss_buffer i c g) = g_gnss_is_data_fixed g.
Proof. unfold store_gnss_buffer. destruct (Nat.ltb i REPLY_BUFFER_LENGTH); reflexivity. Qed.

Lemma gnss_flags_cnt c l : cnt (gnss_flags c l) = cnt l.
Proof. unfold gnss_flags. destruct (gnrmcC l); reflexivity. Qed.

Lemma letters_A_cons c t :
  letters_A (c :: t)
  = ((if Ascii.eqb c "A" then 1 else 0) + letters_A t)%nat.
Proof.
  unfold letters_A. cbn [List.filter]. rewrite (Ascii.eqb_sym "A" c).
  destruct (Ascii.eqb c "A"); reflexivity.
Qed.

(** With fewer than 31 letters A still to come the loop never sets the fix
    flag: it keeps it or clears it. *)
Lemma gnss_read_loop_fixed : forall incoming l g g' rest,
  0 <= cnt l -> cnt l + Z.of_nat (letters_A incoming) <= 30 ->
  gnss_read_loop incoming l g = Some (g', rest) ->
  g_gnss_is_data_fixed g' = g_gnss_is_data_fixed g \/ g_gnss_is_data_fixed g' = 0.
Proof.
  induction incoming as [|c t IH]; intros l g g' rest Hpos Hcnt Hrun;
    [discriminate|].
  cbn [gnss_read_loop] in Hrun. rewrite letters_A_cons in Hcnt.
  pose proof (gnss_flags_cnt c l) as Hc.
  destruct (gnrmcC (gnss_flags c l)).
  - destruct (Ascii.eqb c CR); [injection Hrun as <- _; left; reflexivity|].
    destruct (Ascii.eqb c "V"); [injection Hrun as <- _; right; reflexivity|].
    destruct (Ascii.eqb c "A").
    + destruct (Z.eqb_spec (cnt (gnss_flags c l)) 30) as [E|_]; [lia|].
      apply IH in Hrun; cbn [cnt].
      * rewrite store_gnss_buffer_fixed in Hrun. exact Hrun.
      * unfold uint8. apply Z.mod_pos_bound. lia.
      * unfold uint8. rewrite Z.mod_small by lia. lia.
    + apply IH in Hrun; cbn [cnt]; [|lia|lia].
      rewrite store_gnss_buffer_fixed in Hrun. exact Hrun.
  - apply IH in Hrun; [exact Hrun | lia | lia].
Qed.

(** X16: the fix status is raised only by the thirty-first letter A of a
    call.  When [SIM868_gnss_get_fix_status] returns and the bytes it was
    given hold at most 30 letters A, the status it returns is the one left
    by the call before, or 0; it does not depend on the validity field of
    the sentence being A. *)
Theorem gnss_fix_status_needs_31_letters
    (incoming rest : list ascii) (g g' : Gnss) (status : Z) :
  SIM868_gnss_get_fix_status incoming g = Some (status, g', rest) ->
  (letters_A incoming <= 30)%nat ->
  status = g_gnss_is_data_fixed g \/ status = 0.
Proof.
  unfold SIM868_gnss_get_fix_status, gnss_read_data. intros Hrun Hcnt.
  destruct (gnss_read_loop incoming gnss_scan_start g) as [[g1 r1]|] eqn:E;
    [|discriminate].
  injection Hrun as <- _ _.
  apply (gnss_read_loop_fixed incoming gnss_scan_start g g1 r1);
    [cbn; lia | cbn [cnt gnss_scan_start]; lia | exact E].
Qed.

(** A valid sentence (validity field A) read after reset: the status
    returned is 0. *)
Lemma gnss_fix_status_needs_31_letters_witness :
  fst (fst (default (1, gnss_power_on, [])
                    (SIM868_gnss_get_fix_status sample_nmea gnss_power_on))) = 0 /\
  (0 = g_gnss_is_data_fixed gnss_power_on \/ 0 = 0).
Proof.
  split; [vm_compute; reflexivity|].
  eapply (gnss_fix_status_needs_31_letters sample_nmea _ gnss_power_on _ 0).
  - vm_compute; reflexivity.
  - vm_compute; lia.
Defined.

Lemma store_gnss_line_buffer line : forall idx g done todo,
  g_gnss_buffer g = done ++ todo ->
  List.length done = idx ->
  (List.length line <= List.length todo)%nat ->
  (idx + List.length todo <= REPLY_BUFFER_LENGTH)%nat ->
  store_gnss_line idx line g
  = mkGnss (done ++ line ++ drop (List.length line) todo)
           (g_gnss_is_data_fixed g) (gnss_out_of_bounds g).
Proof.
  induction line as [|c t IH]; intros idx g done todo Hbuf Hlen Hfit Hcap.
  - destruct g as [buf f o]. cbn [g_gnss_buffer] in Hbuf. subst buf. reflexivity.
  - destruct todo as [|o todo']; [cbn in Hfit; lia|].
    cbn [List.length] in *. cbn [store_gnss_line].
    assert (Hlt : Nat.ltb idx REPLY_BUFFER_LENGTH = true)
      by (apply Nat.ltb_lt; lia).
    rewrite (IH (S idx) (store_gnss_buffer idx c g) (done ++ [c]) todo').
    + unfold store_gnss_buffer. rewrite Hlt.
      cbn [g_gnss_is_data_fixed gnss_out_of_bounds drop].
      rewrite <- app_assoc. reflexivity.
    + unfold store_gnss_buffer. rewrite Hlt. cbn [g_gnss_buffer].
      rewrite Hbuf. subst idx.
      replace (List.length done) with (List.length done + 0)%nat by lia.
      rewrite insert_app_r. cbn. rewrite <- app_assoc. reflexivity.
    + rewrite length_app. cbn. lia.
    + lia.
    + lia.
Qed.

(** Before the letter R everything is skipped. *)
Lemma gnss_read_loop_before_R pre : forall tl cn i g,
  Forall (fun c => c <> "R"%char) pre ->
  gnss_read_loop (pre ++ tl) (mkScan cn i false false false) g
  = gnss_read_loop tl (mkScan cn i false false false) g.
Proof.
  induction pre as [|c t IH]; intros tl cn i g Hpre; [reflexivity|].
  apply Forall_cons_1 in Hpre as [Hc Hpre].
  cbn [app gnss_read_loop]. unfold gnss_flags.
  cbn [gnrmcC gnrmcR gnrmcM cnt gnss_idx orb].
  destruct (Ascii.eqb_spec c "R"); [contradiction|].
  rewrite !andb_false_r. cbn [gnrmcC]. apply IH. exact Hpre.
Qed.

(** After R, everything up to the letter M is skipped. *)
Lemma gnss_read_loop_before_M mid : forall tl cn i g,
  Forall (fun c => c <> "M"%char) mid ->
  gnss_read_loop (mid ++ tl) (mkScan cn i true false false) g
  = gnss_read_loop tl (mkScan cn i true false false) g.
Proof.
  induction mid as [|c t IH]; intros tl cn i g Hmid; [reflexivity|].
  apply Forall_cons_1 in Hmid as [Hc Hmid].
  cbn [app gnss_read_loop]. unfold gnss_flags.
  cbn [gnrmcC gnrmcR gnrmcM cnt gnss_idx orb].
  destruct (Ascii.eqb_spec c "M"); [contradiction|].
  cbn [andb]. rewrite !andb_false_r. cbn [gnrmcC]. apply IH. exact Hmid.
Qed.

(** After R and M, everything up to the letter C is skipped. *)
Lemma gnss_read_loop_before_C mid : forall tl cn i g,
  Forall (fun c => c <> "C"%char) mid ->
  gnss_read_loop (mid ++ tl) (mkScan cn i true true false) g
  = gnss_read_loop tl (mkScan cn i true true false) g.
Proof.
  induction mid as [|c t IH]; intros tl cn i g Hmid; [reflexivity|].
  apply Forall_cons_1 in Hmid as [Hc Hmid].
  cbn [app gnss_read_loop]. unfold gnss_flags.
  cbn [gnrmcC gnrmcR gnrmcM cnt gnss_idx orb].
  destruct (Ascii.eqb_spec c "C"); [contradiction|].
  cbn [andb gnrmcC]. apply IH. exact Hmid.
Qed.

(** Once the capture has begun every character up to the carriage return
    is stored. *)
Lemma gnss_read_loop_capture body : forall rest k i r m g,
  Forall (fun c => c <> CR /\ c <> "V"%char) body ->
  (k + letters_A body <= 30)%nat ->
  (i + List.length body <= 255)%nat ->
  gnss_read_loop (body ++ CR :: rest) (mkScan (Z.of_nat k) (Z.of_nat i) r m true) g
  = Some (store_gnss_line i body g, rest).
Proof.
  induction body as [|c t IH]; intros rest k i r m g Hbody Hk Hi.
  - cbn [app gnss_read_loop store_gnss_line]. unfold gnss_flags. cbn [gnrmcC].
    rewrite Ascii.eqb_refl. reflexivity.
  - apply Forall_cons_1 in Hbody as [[Hcr Hv] Hbody].
    rewrite letters_A_cons in Hk. cbn [List.length] in Hi.
    cbn [app gnss_read_loop store_gnss_line]. unfold gnss_flags.
    cbn [gnrmcC gnrmcR gnrmcM cnt gnss_idx].
    destruct (Ascii.eqb_spec c CR); [contradiction|].
    destruct (Ascii.eqb_spec c "V"); [contradiction|].
    rewrite Nat2Z.id.
    replace (uint8 (Z.of_nat i + 1)) with (Z.of_nat (S i))
      by (unfold uint8; rewrite Z.mod_small by lia; lia).
    destruct (Ascii.eqb c "A").
    + destruct (Z.eqb_spec (Z.of_nat k) 30); [lia|].
      replace (uint8 (Z.of_nat k + 1)) with (Z.of_nat (S k))
        by (unfold uint8; rewrite Z.mod_small by lia; lia).
      apply IH; [exact Hbody | lia | lia].
    + apply IH; [exact Hbody | lia | lia].
Qed.

(** X17: what [gnss_read_data] takes for the sentence.  The capture begins
    at the first letter C that follows a letter M that follows a letter R,
    wherever these stand, and ends at the next carriage return.  With a
    sentence body free of the letter V, shorter than the buffer and with at
    most 30 letters A, the call returns with the C and the body stored from
    index 0; the buffer behind them keeps its old contents (no terminator
    is written), the fix status is unchanged and the bytes after the
    carriage return stay unread. *)
Theorem gnss_read_data_captures
    (pre mid1 mid2 body rest : list ascii) (g : Gnss) :
  Forall (fun c => c <> "R"%char) pre ->
  Forall (fun c => c <> "M"%char) mid1 ->
  Forall (fun c => c <> "C"%char) mid2 ->
  Forall (fun c => c <> CR /\ c <> "V"%char) body ->
  (letters_A body <= 30)%nat ->
  (List.length body < 255)%nat ->
  List.length (g_gnss_buffer g) = 255%nat ->
  gnss_read_data
    (pre ++ "R"%char :: mid1 ++ "M"%char :: mid2 ++ "C"%char :: body ++ CR :: rest) g
  = Some (mkGnss ("C"%char :: body ++ drop (S (List.length body)) (g_gnss_buffer g))
                 (g_gnss_is_data_fixed g) (gnss_out_of_bounds g),
          rest).
Proof.
  intros Hpre Hmid1 Hmid2 Hbody Hcnt Hlen Hbuf.
  unfold gnss_read_data, gnss_scan_start.
  rewrite gnss_read_loop_before_R by exact Hpre.
  cbn [gnss_read_loop].
  change (gnss_flags "R" (mkScan 0 0 false false false))
    with (mkScan 0 0 true false false).
  cbn [gnrmcC]. cbv iota.
  rewrite gnss_read_loop_before_M by exact Hmid1.
  cbn [gnss_read_loop].
  change (gnss_flags "M" (mkScan 0 0 true false false))
    with (mkScan 0 0 true true false).
  cbn [gnrmcC]. cbv iota.
  rewrite gnss_read_loop_before_C by exact Hmid2.
  cbn [gnss_read_loop].
  change (gnss_flags "C" (mkScan 0 0 true true false))
    with (mkScan 0 0 true true true).
  cbn [gnrmcC gnrmcR gnrmcM cnt gnss_idx]. cbv iota.
  change (Ascii.eqb "C" CR) with false.
  change (Ascii.eqb "C" "V") with false.
  change (Ascii.eqb "C" "A") with false. cbv beta iota.
  change (uint8 (0 + 1)) with (Z.of_nat 1). change 0 with (Z.of_nat 0) at 1.
  rewrite (gnss_read_loop_capture body rest 0 1 true true) by (assumption || lia).
  f_equal. f_equal. change (Z.to_nat 0) with 0%nat.
  change (store_gnss_line 1 body (store_gnss_buffer 0 "C" g))
    with (store_gnss_line 0 ("C"%char :: body) g).
  rewrite (store_gnss_line_buffer ("C"%char :: body) 0 g [] (g_gnss_buffer g));
    [reflexivity | reflexivity | reflexivity | cbn [List.length]; lia
     | rewrite Hbuf; unfold REPLY_BUFFER_LENGTH; lia].
Qed.

(** The sample sentence after reset: [sample_rmc] is captured, the line
    feed stays unread. *)
Lemma gnss_read_data_captures_witness :
  gnss_read_data sample_nmea gnss_power_on
  = Some (mkGnss (list_ascii_of_string sample_rmc
                  ++ drop (String.length sample_rmc) blank_buffer) 0 [],
          [LF]).
Proof.
  apply (gnss_read_data_captures
           (list_ascii_of_string "$GN") [] []
           (List.tl (list_ascii_of_string sample_rmc)) [LF] gnss_power_on).
  - repeat apply List.Forall_cons; try apply List.Forall_nil; discriminate.
  - apply List.Forall_nil.
  - apply List.Forall_nil.
  - repeat apply List.Forall_cons; try apply List.Forall_nil; split; discriminate.
  - vm_compute; lia.
  - vm_compute; lia.
  - reflexivity.
Defined.

(** ** GNSS sentence parser *)







(** This is the buffer a void sentence leaves after reset. *)
Lemma gnss_read_data_void_sentence :
  match gnss_read_data void_nmea gnss_power_on with
  | Some (g, _) => cstr (g_gnss_buffer g) = "C,235959.000,"
  | None => False
  end.
Proof. vm_compute. reflexivity. Qed.



(** ** Power control *)

(** The polling loop: it ends at the first poll that shows the wanted
    level, or after [time_out] polls one millisecond apart. *)
Lemma sim_power_poll_spec : forall time_out want error_status b,
  let st := sim_status (gpio b) in
  let ws := power_writes (gpio b) in
  let t0 := since_write (gpio b) in
  let r := sim_power_poll time_out want error_status b in
  sim_status (gpio (snd r)) = st /\
  power_writes (gpio (snd r)) = ws /\
  ((exists j, (j < time_out)%nat /\ st ws (t0 + j)%nat = want /\
              since_write (gpio (snd r)) = (t0 + j)%nat /\ fst r = NO_ERROR) \/
   ((forall i, (i < time_out)%nat -> st ws (t0 + i)%nat = negb want) /\
    since_write (gpio (snd r)) = (t0 + time_out)%nat /\
    fst r = match time_out with O => error_status | S _ => ERROR_POWER_STATE end)).
Proof.
  induction time_out as [|n IH]; intros want e b; cbv zeta.
  - cbn [sim_power_poll fst snd]. split; [reflexivity|]. split; [reflexivity|].
    right. split; [intros i Hi; lia|]. split; [lia | reflexivity].
  - cbn [sim_power_poll].
    destruct (Bool.eqb (sim_state b) want) eqn:E.
    + cbn [fst snd]. split; [reflexivity|]. split; [reflexivity|].
      left. exists 0%nat. apply Bool.eqb_prop in E. unfold sim_state in E.
      rewrite Nat.add_0_r. repeat split; [lia | exact E].
    + specialize (IH want ERROR_POWER_STATE (board_delay 1 b)). cbv zeta in IH.
      change (sim_status (gpio (board_delay 1 b))) with (sim_status (gpio b)) in IH.
      change (power_writes (gpio (board_delay 1 b))) with (power_writes (gpio b)) in IH.
      change (since_write (gpio (board_delay 1 b)))
        with (since_write (gpio b) + 1)%nat in IH.
      destruct IH as (Hst & Hws & Hcase).
      split; [exact Hst|]. split; [exact Hws|].
      assert (Hnow : sim_status (gpio b) (power_writes (gpio b)) (since_write (gpio b))
                     = negb want).
      { apply Bool.eqb_false_iff in E. unfold sim_state in E.
        destruct (sim_status (gpio b) (power_writes (gpio b)) (since_write (gpio b))),
                 want; try reflexivity; contradiction. }
      destruct Hcase as [(j & Hj & Hhit & Hsince & Hres) | (Hall & Hsince & Hres)].
      * left. exists (S j).
        replace (since_write (gpio b) + S j)%nat
          with (since_write (gpio b) + 1 + j)%nat by lia.
        repeat split; [lia | exact Hhit | exact Hsince | exact Hres].
      * right. split; [|split].
        -- intros i Hi. destruct i as [|i].
           ++ rewrite Nat.add_0_r. exact Hnow.
           ++ replace (since_write (gpio b) + S i)%nat
                with (since_write (gpio b) + 1 + i)%nat by lia.
              apply Hall. lia.
        -- rewrite Hsince. lia.
        -- rewrite Hres. destruct n; reflexivity.
Qed.

(** X20: asking for the level the module already has.  When the status
    line shows the requested level (ON while on, OFF while off),
    [SIM868_set_power_level] touches nothing, and what it returns is the
    indeterminate start value of its local [error_status]: no value is
    assigned to it on this path. *)
Theorem set_power_level_same_state (error_status0 state : Z) (b : Board) :
  SIM868_get_state b = uint8 state ->
  SIM868_set_power_level error_status0 state b = (error_status0, b).
Proof.
  unfold SIM868_set_power_level, SIM868_get_state, ON, OFF, RESET.
  intros <-. destruct (sim_state b); reflexivity.
Qed.

(** OFF requested for a module that is off, the local holding 77. *)
Lemma set_power_level_same_state_witness :
  SIM868_set_power_level 77 OFF (board_on (stuck_module false))
  = (77, board_on (stuck_module false)).
Proof.
  apply (set_power_level_same_state 77 OFF (board_on (stuck_module false))).
  reflexivity.
Defined.

(** X21: switching on.  For ON requested while the status line is low the
    power key gets one pulse (high, then low).  The status line is then
    polled up to 1000 times, one millisecond apart, from 100 ms after the
    pulse: the result is [NO_ERROR] at the first poll that finds it high,
    and [ERROR_POWER_STATE] when all 1000 polls find it low. *)
Theorem set_power_level_on (error_status0 state : Z) (b : Board) :
  uint8 state = ON ->
  sim_state b = false ->
  let r := SIM868_set_power_level error_status0 state b in
  let ws := power_writes (gpio b) ++ [1; 0] in
  let st := sim_status (gpio b) in
  power_writes (gpio (snd r)) = ws /\
  ((fst r = NO_ERROR /\ sim_state (snd r) = true /\
    exists j, (j < 1000)%nat /\ since_write (gpio (snd r)) = (100 + j)%nat) \/
   (fst r = ERROR_POWER_STATE /\
    forall i, (i < 1000)%nat -> st ws (100 + i)%nat = false)).
Proof.
  intros Hstate Hoff. cbv zeta.
  unfold SIM868_set_power_level, SIM868_get_state. rewrite Hstate, Hoff.
  change (ON =? ON) with true. change (0 =? OFF) with true. cbv iota.
  unfold sim_power_up.
  pose proof (sim_power_poll_spec 1000 true error_status0 (sim_change_state b)) as H.
  cbv zeta in H.
  change (sim_status (gpio (sim_change_state b))) with (sim_status (gpio b)) in H.
  change (power_writes (gpio (sim_change_state b)))
    with ((power_writes (gpio b) ++ [1]) ++ [0]) in H.
  change (since_write (gpio (sim_change_state b))) with 100%nat in H.
  rewrite <- app_assoc in H. cbn [app] in H.
  destruct (sim_power_poll 1000 true error_status0 (sim_change_state b)) as [e b1].
  cbn [fst snd] in *.
  destruct H as (Hst & Hws & Hcase). split; [exact Hws|].
  destruct Hcase as [(j & Hj & Hhit & Hsince & Hres) | (Hall & Hsince & Hres)].
  - left. split; [exact Hres|]. split.
    + unfold sim_state. rewrite Hst, Hws, Hsince. exact Hhit.
    + exists j. split; [exact Hj | exact Hsince].
  - right. split; [exact Hres | exact Hall].
Qed.

(** A module that comes up 300 ms after the pulse: found on at the 201st
    poll. *)
Lemma set_power_level_on_witness :
  let r := SIM868_set_power_level 77 ON (board_on (toggling_module false 300)) in
  power_writes (gpio (snd r)) = [] ++ [1; 0] /\
  ((fst r = NO_ERROR /\ sim_state (snd r) = true /\
    exists j, (j < 1000)%nat /\ since_write (gpio (snd r)) = (100 + j)%nat) \/
   (fst r = ERROR_POWER_STATE /\
    forall i, (i < 1000)%nat ->
              toggling_module false 300 ([] ++ [1; 0]) (100 + i)%nat = false)).
Proof.
  apply (set_power_level_on 77 ON (board_on (toggling_module false 300))).
  - reflexivity.
  - reflexivity.
Defined.

Lemma set_power_level_on_sample :
  let r := SIM868_set_power_level 77 ON (board_on (toggling_module false 300)) in
  fst r = NO_ERROR /\ since_write (gpio (snd r)) = 300%nat.
Proof. vm_compute. split; reflexivity. Qed.



Lemma set_power_level_reset_samples :
  fst (SIM868_set_power_level 77 RESET (board_on (stuck_module true)))
    = ERROR_POWER_STATE /\
  power_writes (gpio (snd (SIM868_set_power_level 77 RESET
                             (board_on (stuck_module true))))) = [1; 0] /\
  fst (SIM868_set_power_level 77 RESET (board_on (toggling_module true 300)))
    = NO_ERROR /\
  power_writes (gpio (snd (SIM868_set_power_level 77 RESET
                             (board_on (toggling_module true 300))))) = [1; 0; 1; 0].
Proof. vm_compute. repeat split; reflexivity. Qed.

(** ** Network bring-up *)




